(** * MatrixClient: request dispatch, reply continuations and the sync cursor

    A shallow embedding of [src/MatrixClient.cc] (nheko).  Every member
    function that issues a request is a function from the client object
    to the new client object and the list of requests handed to the
    network access manager; every lambda connected to
    [QNetworkReply::finished] is a function from the client object and
    the finished reply to the new client object and the list of Qt
    signals emitted, in order.

    The JSON text parsers ([QJsonDocument::fromJson], [nlohmann::json::parse]
    followed by the [from_json] conversions of the mtx structs) belong to
    libraries outside the repository: they are the fields of the class
    [JsonLib] below and every definition is parametric in them. *)

From Stdlib Require Import ZArith String Ascii List Bool Lia Sorted.
From Stdlib Require Import DecimalString DecimalZ Permutation.
Import ListNotations.

Local Open Scope string_scope.
Local Open Scope Z_scope.

(** ** Qt value types *)

Definition QString := string.
Definition QByteArray := string.

(** [QString::startsWith]. *)
Definition startsWith (s p : QString) : bool := String.prefix p s.

(** [QString::isEmpty], [QByteArray::isEmpty], [size() == 0]. *)
Definition isEmpty (s : string) : bool :=
  match s with EmptyString => true | String _ _ => false end.

(** [QString::number] and the text [QString::arg(int)] substitutes:
    the decimal form, with a leading minus sign for negative values. *)
Definition number (n : Z) : QString := NilZero.string_of_int (Z.to_int n).

(** *** [QString::arg]

    [arg] replaces every occurrence of the lowest numbered place marker
    ([%1] .. [%99], optionally written [%L1]) by the argument.  The
    scanner follows [findArgEscapes]: after a percent sign an optional
    [L], then one digit and, when one follows, a second digit; anything
    else leaves the percent sign as plain text and scanning resumes at
    the character that did not fit. *)

Inductive Piece : Type :=
| PChar (c : ascii)
| PEscape (n : nat) (raw : string).

Definition digitValue (c : ascii) : option nat :=
  let n := nat_of_ascii c in
  if (andb (48 <=? n) (n <=? 57))%nat then Some (n - 48)%nat else None.

Definition is_percent (c : ascii) : bool := Ascii.eqb c "%"%char.
Definition is_L (c : ascii) : bool := Ascii.eqb c "L"%char.

Fixpoint pieces (s : string) : list Piece :=
  match s with
  | EmptyString => []
  | String c r =>
    if is_percent c then
      match r with
      | EmptyString => [PChar c]
      | String x r1 =>
        if is_L x then
          match r1 with
          | EmptyString => [PChar c; PChar x]
          | String d r2 =>
            match digitValue d with
            | None => PChar c :: PChar x :: pieces r1
            | Some v =>
              match r2 with
              | EmptyString => [PEscape v (String c (String x (String d EmptyString)))]
              | String d' r3 =>
                match digitValue d' with
                | None => PEscape v (String c (String x (String d EmptyString))) :: pieces r2
                | Some v' =>
                  PEscape (10 * v + v')
                          (String c (String x (String d (String d' EmptyString))))
                  :: pieces r3
                end
              end
            end
          end
        else
          match digitValue x with
          | None => PChar c :: pieces r
          | Some v =>
            match r1 with
            | EmptyString => [PEscape v (String c (String x EmptyString))]
            | String d' r2 =>
              match digitValue d' with
              | None => PEscape v (String c (String x EmptyString)) :: pieces r1
              | Some v' =>
                PEscape (10 * v + v') (String c (String x (String d' EmptyString)))
                :: pieces r2
              end
            end
          end
      end
    else PChar c :: pieces r
  end.

(** [ArgEscapeData::min_escape]: the lowest marker number, if any. *)
Fixpoint min_escape (ps : list Piece) : option nat :=
  match ps with
  | [] => None
  | PChar _ :: ps' => min_escape ps'
  | PEscape n _ :: ps' =>
    match min_escape ps' with
    | None => Some n
    | Some m => Some (Nat.min n m)
    end
  end.

(** [replaceArgEscapes] with field width 0. *)
Fixpoint replaceArgEscapes (m : nat) (a : QString) (ps : list Piece) : QString :=
  match ps with
  | [] => EmptyString
  | PChar c :: ps' => String c (replaceArgEscapes m a ps')
  | PEscape n raw :: ps' =>
    (if Nat.eqb n m then a else raw) ++ replaceArgEscapes m a ps'
  end.

(** [QString::arg(const QString &)]; without a place marker Qt warns and
    returns the string as it is. *)
Definition arg (s a : QString) : QString :=
  let ps := pieces s in
  match min_escape ps with
  | None => s
  | Some m => replaceArgEscapes m a ps
  end.

(** No percent sign, hence no place marker. *)
Fixpoint plain (s : string) : bool :=
  match s with
  | EmptyString => true
  | String c r => negb (is_percent c) && plain r
  end.

(** [QString::arg(int)]. *)
Definition arg_int (s : QString) (n : Z) : QString := arg s (number n).

(** *** Qt JSON values *)

#[local] Set Warnings "-register-all".

Inductive QJsonValue : Type :=
| JNull
| JBool (b : bool)
| JDouble (n : Z)
| JString (s : QString)
| JArray (xs : list QJsonValue)
| JObject (kv : list (QString * QJsonValue))
| JUndefined.

Definition QJsonObject := list (QString * QJsonValue).

(** The three states of a [QJsonDocument]: null (also the result of a
    failed [fromJson]), an array, an object. *)
Inductive QJsonDocument : Type :=
| DocNull
| DocArray (xs : list QJsonValue)
| DocObject (o : QJsonObject).

Definition isNull (d : QJsonDocument) : bool :=
  match d with DocNull => true | _ => false end.

Definition isObject (d : QJsonDocument) : bool :=
  match d with DocObject _ => true | _ => false end.

(** [QJsonDocument::object]: the empty object unless the document holds one. *)
Definition object (d : QJsonDocument) : QJsonObject :=
  match d with DocObject o => o | _ => [] end.

(** [QJsonObject::value] / [operator[]]: [Undefined] for a missing key. *)
Fixpoint value (o : QJsonObject) (k : QString) : QJsonValue :=
  match o with
  | [] => JUndefined
  | (k', v) :: o' => if String.eqb k' k then v else value o' k
  end.

Fixpoint contains (o : QJsonObject) (k : QString) : bool :=
  match o with
  | [] => false
  | (k', _) :: o' => if String.eqb k' k then true else contains o' k
  end.

(** [QJsonValue::toString]: the string, or the null string for any other kind. *)
Definition toString (v : QJsonValue) : QString :=
  match v with JString s => s | _ => EmptyString end.

(** [QJsonObject::isEmpty]. *)
Definition objIsEmpty (o : QJsonObject) : bool :=
  match o with [] => true | _ => false end.

(** ** The client object

    [QUrl server_] is kept as scheme, host and port; [QSettings] is the
    process wide store the file reads [auth/user_id] from and writes
    [client/sync_filter] to. *)

Record QUrl : Type := mkUrl {
  scheme : QString;
  host : QString;
  port : Z
}.

Record QSettings : Type := mkSettings {
  auth_user_id : QString;
  client_sync_filter : QString;
  client_transaction_id : Z
}.

Record MatrixClient : Type := mkClient {
  server_ : QUrl;
  token_ : QString;
  next_batch_ : QString;
  txn_id_ : Z;
  filter_ : QString;
  settings : QSettings
}.

Definition clientApiUrl_ : QString := "/_matrix/client/r0".
Definition mediaApiUrl_ : QString := "/_matrix/media/r0".

Definition emptyUrl : QUrl := mkUrl "" "" (-1).

(** [MatrixClient::reset]. *)
Definition reset (c : MatrixClient) : MatrixClient :=
  mkClient emptyUrl "" "" 0 (filter_ c) (settings c).

(** ** Requests, replies and signals *)

Inductive Method : Type := GET | POST | PUT.

Inductive Body : Type :=
| NoBody
| JsonBody (o : QJsonObject)
| RawBody (b : QByteArray).

(** What is handed to [get], [post] or [put]: the endpoint (server, path
    as given to [setPath], query items in the order they were added), the
    content type header and the body. *)
Record Request : Type := mkRequest {
  method : Method;
  req_server : QUrl;
  path : QString;
  query : list (QString * QString);
  content_type : option QString;
  auth : option QString;
  body : Body
}.

Definition is_GET (r : Request) : bool :=
  match method r with GET => true | _ => false end.

Definition is_POST (r : Request) : bool :=
  match method r with POST => true | _ => false end.

(** Modelled from the spec: [setupAuth] is declared in MatrixClient.h,
    which is not part of the sources at hand; "when authRequired is true,
    attaching the Session's credential as a bearer header". *)
Definition setupAuth (c : MatrixClient) : option QString := Some (token_ c).

(** A finished [QNetworkReply]: the [HttpStatusCodeAttribute] as an
    [int] (0 when no response was received), the bytes of [readAll],
    whether [error()] is set, the [errorString]. *)
Record Reply : Type := mkReply {
  status : Z;
  data : QByteArray;
  error : bool;
  errorString : QString
}.

(** [mtx::errors::ErrorCode], [mtx::errors::Error] and the response
    structs, with the fields this file reads. *)
Inductive ErrorCode : Type :=
| M_UNRECOGNIZED | M_FORBIDDEN | M_UNKNOWN_TOKEN | M_BAD_JSON | M_NOT_JSON
| M_NOT_FOUND | M_LIMIT_EXCEEDED | M_USER_IN_USE | M_INVALID_USERNAME
| M_ROOM_IN_USE | M_INVALID_ROOM_STATE | M_BAD_PAGINATION
| M_THREEPID_IN_USE | M_THREEPID_NOT_FOUND | M_SERVER_NOT_TRUSTED.

Definition ErrorCode_eqb (a b : ErrorCode) : bool :=
  match a, b with
  | M_UNRECOGNIZED, M_UNRECOGNIZED | M_FORBIDDEN, M_FORBIDDEN
  | M_UNKNOWN_TOKEN, M_UNKNOWN_TOKEN | M_BAD_JSON, M_BAD_JSON
  | M_NOT_JSON, M_NOT_JSON | M_NOT_FOUND, M_NOT_FOUND
  | M_LIMIT_EXCEEDED, M_LIMIT_EXCEEDED | M_USER_IN_USE, M_USER_IN_USE
  | M_INVALID_USERNAME, M_INVALID_USERNAME | M_ROOM_IN_USE, M_ROOM_IN_USE
  | M_INVALID_ROOM_STATE, M_INVALID_ROOM_STATE
  | M_BAD_PAGINATION, M_BAD_PAGINATION
  | M_THREEPID_IN_USE, M_THREEPID_IN_USE
  | M_THREEPID_NOT_FOUND, M_THREEPID_NOT_FOUND
  | M_SERVER_NOT_TRUSTED, M_SERVER_NOT_TRUSTED => true
  | _, _ => false
  end.

Record Error : Type := mkError {
  errcode : ErrorCode;
  error_msg : QString
}.

Record Sync : Type := mkSync { sync_next_batch : QString }.

Record Login : Type := mkLogin {
  login_user_id : QString;
  login_access_token : QString
}.

Record EventId : Type := mkEventId { event_id : QString }.

(** The signals of [MatrixClient] and of the download proxy that the
    modelled continuations emit. *)
Inductive Signal : Type :=
| loginError (msg : QString)
| loginSuccess (user_id hostname token : QString)
| loggedOut
| invalidToken
| syncError (msg : QString)
| syncCompleted (resp : Sync)
| initialSyncFailed (status_code : option Z)
| initialSyncCompleted (resp : Sync)
| messageSent (eventid roomid : QString) (txnId : Z)
| messageSendFailed (roomid : QString) (txnId : Z)
| roomAvatarRetrieved (roomid : QString) (pixmap : QByteArray)
                      (avatar_url : QString) (img : QByteArray)
| fileDownloaded (bytes : QByteArray)
| uploadFailed (status_code : Z) (msg : QString)
| fileUploaded (roomid filename content_uri mime : QString) (size : Z)
| redactionFailed (msg : QString)
| redactionCompleted (room_id eventid : QString).

(** The parsers of the JSON libraries.  [None] stands for the exception
    the nlohmann parser or a [from_json] conversion throws. *)
Class JsonLib : Type := {
  fromJson : QByteArray -> QJsonDocument;
  parse_Error : QByteArray -> option Error;
  parse_Sync : QByteArray -> option Sync;
  parse_Login : QByteArray -> option Login;
  parse_EventId : QByteArray -> option EventId;
  what : QByteArray -> QString
}.

(** The test every continuation starts with: [status == 0 || status >= 400]. *)
Definition failed (r : Reply) : bool := (status r =? 0) || (400 <=? status r).

(** ** Transaction identifiers *)

(** The two's complement wrap of a 64-bit integer. *)
Definition wrap64 (z : Z) : Z := (z + 2 ^ 63) mod 2 ^ 64 - 2 ^ 63.

Definition TransactionId_max : Z := 2 ^ 63 - 1.

(** Modelled from the spec: [incrementTransactionId] is defined in
    MatrixClient.h, which is not part of the sources at hand.  "Returns
    the current counter value then increments it"; a TransactionId is "a
    64-bit monotonically increasing integer". *)
Definition incrementTransactionId (c : MatrixClient) : Z * MatrixClient :=
  (txn_id_ c,
   mkClient (server_ c) (token_ c) (next_batch_ c) (wrap64 (txn_id_ c + 1))
            (filter_ c) (settings c)).

(** [mtx::events::MessageType]. *)
Inductive MessageType : Type :=
| Audio | Emote | File | Image | Location | Notice | Text | Video | Unknown.

Section Client.

Context {lib : JsonLib}.

(** ** Member functions that dispatch requests *)

(** The request [uploadFilter] posts for the filter of the client. *)
Definition filter_upload (c : MatrixClient) : Request :=
  mkRequest POST (server_ c)
            (clientApiUrl_ ++ arg "/user/%1/filter" (auth_user_id (settings c)))
            [] (Some "application/json") (setupAuth c)
            (JsonBody (object (fromJson (filter_ c)))).

(** [MatrixClient::uploadFilter]. *)
Definition uploadFilter (c : MatrixClient) (filter : QString)
  : MatrixClient * list Request :=
  let doc := fromJson filter in
  if isNull doc || negb (isObject doc) then (c, [])
  else
    let userid := auth_user_id (settings c) in
    (c, [mkRequest POST (server_ c)
                   (clientApiUrl_ ++ arg "/user/%1/filter" userid)
                   [] (Some "application/json") (setupAuth c)
                   (JsonBody (object doc))]).

(** [MatrixClient::sync]. *)
Definition sync (c : MatrixClient) : MatrixClient * list Request :=
  let '(c1, uploads) :=
    if startsWith (filter_ c) "{" then uploadFilter c (filter_ c) else (c, []) in
  let query := [("set_presence", "online");
                ("filter", filter_ c1);
                ("timeout", "30000")] in
  if isEmpty (next_batch_ c1) then (c1, uploads)
  else
    let query := app query [("since", next_batch_ c1)] in
    (c1, app uploads [mkRequest GET (server_ c1) (clientApiUrl_ ++ "/sync")
                                query None (setupAuth c1) NoBody]).

(** [MatrixClient::initialSync]. *)
Definition initialSync (c : MatrixClient) : MatrixClient * list Request :=
  let query := [("timeout", "0"); ("filter", filter_ c)] in
  (c, [mkRequest GET (server_ c) (clientApiUrl_ ++ "/sync") query None
                 (setupAuth c) NoBody]).

(** [MatrixClient::logout]. *)
Definition logout (c : MatrixClient) : MatrixClient * list Request :=
  (c, [mkRequest POST (server_ c) (clientApiUrl_ ++ "/logout") []
                 (Some "application/json") (setupAuth c) (JsonBody [])]).

(** The body [sendRoomMessage] builds for a message type, [None] for
    the [default] branch of its switch. *)
Definition message_body (ty : MessageType) (msg mime : QString)
           (media_size : Z) (url : QString) : option QJsonObject :=
  let info := JObject [("size", JDouble (wrap64 media_size));
                       ("mimetype", JString mime)] in
  let media (t : QString) :=
    Some [("msgtype", JString t); ("body", JString msg);
          ("url", JString url); ("info", info)] in
  match ty with
  | Text => Some [("msgtype", JString "m.text"); ("body", JString msg)]
  | Emote => Some [("msgtype", JString "m.emote"); ("body", JString msg)]
  | Image => media "m.image"
  | File => media "m.file"
  | Audio => media "m.audio"
  | Video => media "m.video"
  | _ => None
  end.

(** [MatrixClient::sendRoomMessage]. *)
Definition sendRoomMessage (c : MatrixClient) (ty : MessageType) (txnId : Z)
           (roomid msg mime : QString) (media_size : Z) (url : QString)
  : MatrixClient * list Request :=
  let p := clientApiUrl_ ++
           arg_int (arg "/rooms/%1/send/m.room.message/%2" roomid) txnId in
  match message_body ty msg mime media_size url with
  | None => (c, [])
  | Some b =>
    (c, [mkRequest PUT (server_ c) p [] (Some "application/json")
                   (setupAuth c) (JsonBody b)])
  end.

(** [MatrixClient::redactEvent]. *)
Definition redactEvent (c : MatrixClient) (room_id eventid : QString)
  : MatrixClient * list Request :=
  let '(txn, c1) := incrementTransactionId c in
  let p := clientApiUrl_ ++
           arg_int (arg (arg "/rooms/%1/redact/%2/%3" room_id) eventid) txn in
  (c1, [mkRequest PUT (server_ c1) p [] (Some "application/json")
                  (setupAuth c1) (JsonBody [])]).

(** ** The continuations connected to [QNetworkReply::finished] *)

(** The lambda of [login]. *)
Definition login_finished (c : MatrixClient) (r : Reply)
  : MatrixClient * list Signal :=
  if status r =? 403 then (c, [loginError "Wrong username or password"])
  else if status r =? 404 then
    (c, [loginError "Login endpoint was not found on the server"])
  else if 400 <=? status r then
    (c, [loginError "An unknown error occured. Please try again."])
  else if error r then (c, [loginError (errorString r)])
  else
    match parse_Login (data r) with
    | Some l =>
      let hostname :=
        if 0 <? port (server_ c)
        then arg_int (arg "%1:%2" (host (server_ c))) (port (server_ c))
        else host (server_ c) in
      (c, [loginSuccess (login_user_id l) hostname (login_access_token l)])
    | None =>
      (c, [loginError "Malformed response. Possibly not a Matrix server"])
    end.

(** The lambda of [logout]. *)
Definition logout_finished (c : MatrixClient) (r : Reply)
  : MatrixClient * list Signal :=
  if negb (status r =? 200) then (c, []) else (c, [loggedOut]).

(** The lambda of [sync]. *)
Definition sync_finished (c : MatrixClient) (r : Reply)
  : MatrixClient * list Signal :=
  let completed :=
    match parse_Sync (data r) with
    | Some s => (c, [syncCompleted s])
    | None => (c, [])
    end in
  if failed r then
    match parse_Error (data r) with
    | Some res =>
      if ErrorCode_eqb (errcode res) M_UNKNOWN_TOKEN then (c, [invalidToken])
      else (c, [syncError (error_msg res)])
    | None => completed
    end
  else completed.

(** The lambda of [initialSync]; [initialSyncFailed()] without argument
    is [initialSyncFailed None]. *)
Definition initialSync_finished (c : MatrixClient) (r : Reply)
  : MatrixClient * list Signal :=
  if failed r then (c, [initialSyncFailed (Some (status r))])
  else
    match parse_Sync (data r) with
    | Some s => (c, [initialSyncCompleted s])
    | None => (c, [initialSyncFailed None])
    end.

(** The lambda of [sendRoomMessage], which captures [roomid] and [txnId]. *)
Definition sendRoomMessage_finished (c : MatrixClient) (roomid : QString)
           (txnId : Z) (r : Reply) : MatrixClient * list Signal :=
  if failed r then (c, [messageSendFailed roomid txnId])
  else if isEmpty (data r) then (c, [messageSendFailed roomid txnId])
  else
    let json := fromJson (data r) in
    if negb (isObject json) then (c, [messageSendFailed roomid txnId])
    else
      let obj := object json in
      if negb (contains obj "event_id") then (c, [messageSendFailed roomid txnId])
      else (c, [messageSent (toString (value obj "event_id")) roomid txnId]).

(** The lambda of [fetchRoomAvatar]; the pixmap loaded from the bytes is
    kept as the bytes. *)
Definition fetchRoomAvatar_finished (c : MatrixClient) (roomid avatar_url : QString)
           (r : Reply) : MatrixClient * list Signal :=
  if failed r then (c, [])
  else
    let img := data r in
    if isEmpty img then (c, [])
    else (c, [roomAvatarRetrieved roomid img avatar_url img]).

(** The lambda of [downloadFile]; it captures the proxy and the reply
    only, so the client object is not touched. *)
Definition downloadFile_finished (r : Reply) : list Signal :=
  if failed r then []
  else if isEmpty (data r) then []
  else [fileDownloaded (data r)].

(** [MatrixClient::getUploadReply]. *)
Definition getUploadReply (r : Reply) : QJsonObject * list Signal :=
  if failed r then
    ([], [uploadFailed (status r)
                       (arg "Media upload failed - %1" (errorString r))])
  else
    let res_data := data r in
    if isEmpty res_data then
      ([], [uploadFailed (status r) "Media upload failed - Empty response"])
    else
      let json := fromJson res_data in
      if negb (isObject json) then
        ([], [uploadFailed (status r) "Media upload failed - Invalid response"])
      else
        let obj := object json in
        if negb (contains obj "content_uri") then
          ([], [uploadFailed (status r)
                             "Media upload failed - Missing 'content_uri'"])
        else (obj, []).

(** The lambda of [uploadFile]; [mime] and [size] are the content type
    and content length headers of the request the reply belongs to. *)
Definition uploadFile_finished (c : MatrixClient) (roomid filename mime : QString)
           (size : Z) (r : Reply) : MatrixClient * list Signal :=
  let '(json, emitted) := getUploadReply r in
  if objIsEmpty json then (c, emitted)
  else
    (c, app emitted
            [fileUploaded roomid filename (toString (value json "content_uri"))
                          mime size]).

(** The lambda of [uploadFilter]. *)
Definition uploadFilter_finished (c : MatrixClient) (r : Reply)
  : MatrixClient * list Signal :=
  if failed r then (c, [])
  else
    let response := fromJson (data r) in
    let filter_id := toString (value (object response) "filter_id") in
    let settings' := mkSettings (auth_user_id (settings c)) filter_id
                                (client_transaction_id (settings c)) in
    (mkClient (server_ c) (token_ c) (next_batch_ c) (txn_id_ c) filter_id
              settings', []).

(** The lambda of [redactEvent]. *)
Definition redactEvent_finished (c : MatrixClient) (room_id eventid : QString)
           (r : Reply) : MatrixClient * list Signal :=
  let completed :=
    match parse_EventId (data r) with
    | Some _ => (c, [redactionCompleted room_id eventid])
    | None => (c, [redactionFailed (what (data r))])
    end in
  if failed r then
    match parse_Error (data r) with
    | Some res => (c, [redactionFailed (error_msg res)])
    | None => completed
    end
  else completed.

(** ** Requests in flight

    A dispatched request together with what its lambda captured; running
    the lambda on the finished reply is [finished]. *)
Inductive Pending : Type :=
| PLogin
| PLogout
| PSync
| PInitialSync
| PSendRoomMessage (roomid : QString) (txnId : Z)
| PFetchRoomAvatar (roomid avatar_url : QString)
| PDownloadFile
| PUploadFile (roomid filename mime : QString) (size : Z)
| PUploadFilter
| PRedactEvent (room_id eventid : QString).

Definition finished (p : Pending) (c : MatrixClient) (r : Reply)
  : MatrixClient * list Signal :=
  match p with
  | PLogin => login_finished c r
  | PLogout => logout_finished c r
  | PSync => sync_finished c r
  | PInitialSync => initialSync_finished c r
  | PSendRoomMessage roomid txnId => sendRoomMessage_finished c roomid txnId r
  | PFetchRoomAvatar roomid avatar_url => fetchRoomAvatar_finished c roomid avatar_url r
  | PDownloadFile => (c, downloadFile_finished r)
  | PUploadFile roomid filename mime size =>
    uploadFile_finished c roomid filename mime size r
  | PUploadFilter => uploadFilter_finished c r
  | PRedactEvent room_id eventid => redactEvent_finished c room_id eventid r
  end.

(** ** Write calls

    A redaction allocates its identifier inside [redactEvent].  For a
    message the caller allocates one and hands it to [sendRoomMessage]
    (the calling code is outside this file; "created by the Allocator on
    each write-call"). *)
Inductive Write : Type :=
| Redact (room_id eventid : QString)
| Send (ty : MessageType) (roomid msg mime : QString) (media_size : Z)
       (url : QString).

(** One write call: the new client object, the identifier the allocator
    handed out, the requests issued. *)
Definition write (c : MatrixClient) (w : Write)
  : MatrixClient * (Z * list Request) :=
  match w with
  | Redact room_id eventid =>
    let txn := fst (incrementTransactionId c) in
    let '(c1, rs) := redactEvent c room_id eventid in
    (c1, (txn, rs))
  | Send ty roomid msg mime media_size url =>
    let '(txn, c1) := incrementTransactionId c in
    let '(c2, rs) := sendRoomMessage c1 ty txn roomid msg mime media_size url in
    (c2, (txn, rs))
  end.

Fixpoint writes (c : MatrixClient) (ws : list Write)
  : MatrixClient * list (Z * list Request) :=
  match ws with
  | [] => (c, [])
  | w :: ws' =>
    let '(c1, out) := write c w in
    let '(c2, outs) := writes c1 ws' in
    (c2, out :: outs)
  end.

(** The identifiers a sequence of write calls produced, in call order. *)
Definition transactionIds (c : MatrixClient) (ws : list Write) : list Z :=
  map fst (snd (writes c ws)).

End Client.

(** ** A JSON library to run the model with

    A reader for the fragment of JSON that the replies of the examples
    use: one object, written without white space, whose members are
    strings without escape sequences.  Texts outside the fragment are
    reported as malformed. *)
Module Flat.

Definition quote : ascii := ascii_of_nat 34.
Definition is_quote (c : ascii) : bool := Ascii.eqb c quote.
Definition is_backslash (c : ascii) : bool := Ascii.eqb c (ascii_of_nat 92).

(** [q s] is [s] between double quotes. *)
Definition q (s : string) : string := String quote (s ++ String quote EmptyString).

(** The characters up to the closing quote, and the text after it. *)
Fixpoint read_string (s : string) : option (string * string) :=
  match s with
  | EmptyString => None
  | String c r =>
    if is_quote c then Some (EmptyString, r)
    else if is_backslash c then None
    else
      match read_string r with
      | Some (a, rest) => Some (String c a, rest)
      | None => None
      end
  end.

(** The members of an object, from the opening quote of the first key
    to the closing brace, which has to end the text. *)
Fixpoint members (fuel : nat) (s : string) : option QJsonObject :=
  match fuel with
  | O => None
  | S fuel' =>
    match s with
    | String c r =>
      if is_quote c then
        match read_string r with
        | Some (k, String ":" (String c' r')) =>
          if is_quote c' then
            match read_string r' with
            | Some (v, String "}" EmptyString) => Some [(k, JString v)]
            | Some (v, String "," rest) =>
              match members fuel' rest with
              | Some o => Some ((k, JString v) :: o)
              | None => None
              end
            | _ => None
            end
          else None
        | _ => None
        end
      else None
    | EmptyString => None
    end
  end.

Definition read_object (s : string) : option QJsonObject :=
  match s with
  | String "{" (String "}" EmptyString) => Some []
  | String "{" r => members (String.length r) r
  | _ => None
  end.

Definition string_field (o : QJsonObject) (k : QString) : option QString :=
  match value o k with
  | JString s => Some s
  | _ => None
  end.

(** The error codes the examples use; any other name is unrecognized. *)
Definition from_string (s : QString) : ErrorCode :=
  if String.eqb s "M_UNKNOWN_TOKEN" then M_UNKNOWN_TOKEN
  else if String.eqb s "M_FORBIDDEN" then M_FORBIDDEN
  else if String.eqb s "M_NOT_FOUND" then M_NOT_FOUND
  else if String.eqb s "M_LIMIT_EXCEEDED" then M_LIMIT_EXCEEDED
  else M_UNRECOGNIZED.

Definition lib : JsonLib := {|
  fromJson d :=
    match read_object d with Some o => DocObject o | None => DocNull end;
  parse_Error d :=
    match read_object d with
    | Some o =>
      match string_field o "errcode", string_field o "error" with
      | Some c, Some m => Some (mkError (from_string c) m)
      | _, _ => None
      end
    | None => None
    end;
  parse_Sync d :=
    match read_object d with
    | Some o =>
      match string_field o "next_batch" with
      | Some b => Some (mkSync b)
      | None => None
      end
    | None => None
    end;
  parse_Login d :=
    match read_object d with
    | Some o =>
      match string_field o "user_id", string_field o "access_token" with
      | Some u, Some t => Some (mkLogin u t)
      | _, _ => None
      end
    | None => None
    end;
  parse_EventId d :=
    match read_object d with
    | Some o =>
      match string_field o "event_id" with
      | Some e => Some (mkEventId e)
      | None => None
      end
    | None => None
    end;
  what _ := "parse error"
|}.

End Flat.

(** ** Example objects and replies *)

Definition example_server : QUrl := mkUrl "https" "matrix.org" (-1).

Definition example_settings : QSettings := mkSettings "@alice:matrix.org" "" 1.

(** A fresh session: no cursor, a literal filter. *)
Definition fresh_client : MatrixClient :=
  mkClient example_server "secret" "" 1 "{}" example_settings.

(** The same session after the initial sync stored a cursor. *)
Definition synced_client : MatrixClient :=
  mkClient example_server "secret" "s72_1" 1 "{}" example_settings.

(** A session whose filter is a handle. *)
Definition resolved_client : MatrixClient :=
  mkClient example_server "secret" "s72_1" 7 "abc" example_settings.

Definition unknown_token_body : QByteArray :=
  "{" ++ Flat.q "errcode" ++ ":" ++ Flat.q "M_UNKNOWN_TOKEN" ++ "," ++
  Flat.q "error" ++ ":" ++ Flat.q "bad token" ++ "}".

Definition unknown_token_reply : Reply :=
  mkReply 401 unknown_token_body true "Host requires authentication".

Definition no_response_reply : Reply :=
  mkReply 0 "" true "Connection refused".

Definition empty_ok_reply : Reply := mkReply 200 "" false "".

Definition filter_created_reply : Reply :=
  mkReply 200 ("{" ++ Flat.q "filter_id" ++ ":" ++ Flat.q "abc" ++ "}") false "".

Definition event_sent_reply : Reply :=
  mkReply 200 ("{" ++ Flat.q "event_id" ++ ":" ++ Flat.q "$ev1" ++ "}") false "".

Definition server_error_reply : Reply :=
  mkReply 500 "" true "Internal Server Error".

Definition three_writes : list Write :=
  [Redact "!room:matrix.org" "$ev1";
   Send Text "!room:matrix.org" "hello" "" 0 "";
   Redact "!room:matrix.org" "$ev2"].

(** * The remaining requests and continuations *)

(** [QJsonValue::toArray]: the elements, or the empty array for any
    other kind of value. *)
Definition toArray (v : QJsonValue) : list QJsonValue :=
  match v with JArray xs => xs | _ => [] end.

(** The mtx response structs of the registration and version requests,
    with the fields this file reads ([user_id.to_string()],
    [user_id.hostname()], [access_token]; [session]). *)
Record Register : Type := mkRegister {
  register_user_id : QString;
  register_hostname : QString;
  register_access_token : QString
}.

Record RegistrationFlows : Type := mkRegistrationFlows { session : QString }.

Record Versions : Type := mkVersions { versions_list : list QString }.

(** Their parsers; [None] stands for the exception thrown. *)
Class MtxLib : Type := {
  parse_Register : QByteArray -> option Register;
  parse_RegistrationFlows : QByteArray -> option RegistrationFlows;
  parse_Versions : QByteArray -> option Versions
}.

(** The signals the continuations below emit. *)
Inductive OtherSignal : Type :=
| registerSuccess (user_id hostname token : QString)
| registrationFlow (user pass server sessionid : QString)
| registerError (msg : QString)
| versionError (msg : QString)
| versionSuccess
| getOwnCommunitiesResponse (groups : list QString)
| communityProfileRetrieved (communityId : QString) (profile : QJsonObject)
| communityRoomsRetrieved (communityId : QString) (rooms : QJsonObject)
| joinFailed (msg : QString)
| joinedRoom (room_id : QString)
| roomCreationFailed (msg : QString)
| roomCreated (room_id : QString).

Section MoreClient.

Context {lib : JsonLib} {mtx : MtxLib}.

(** ** Further member functions that dispatch requests *)

(** [MatrixClient::joinRoom]. *)
Definition joinRoom (c : MatrixClient) (roomIdOrAlias : QString)
  : MatrixClient * list Request :=
  (c, [mkRequest POST (server_ c) (clientApiUrl_ ++ arg "/join/%1" roomIdOrAlias)
                 [] (Some "application/json") (setupAuth c) (RawBody "{}")]).

(** [MatrixClient::leaveRoom]. *)
Definition leaveRoom (c : MatrixClient) (roomId : QString)
  : MatrixClient * list Request :=
  (c, [mkRequest POST (server_ c) (clientApiUrl_ ++ arg "/rooms/%1/leave" roomId)
                 [] (Some "application/json") (setupAuth c) (RawBody "{}")]).

(** [MatrixClient::inviteUser]. *)
Definition inviteUser (c : MatrixClient) (roomId user : QString)
  : MatrixClient * list Request :=
  (c, [mkRequest POST (server_ c) (clientApiUrl_ ++ arg "/rooms/%1/invite" roomId)
                 [] (Some "application/json") (setupAuth c)
                 (JsonBody [("user_id", JString user)])]).

(** [MatrixClient::createRoom]; [create_room_request] is the JSON text
    the request struct dumps to. *)
Definition createRoom (c : MatrixClient) (create_room_request : QByteArray)
  : MatrixClient * list Request :=
  (c, [mkRequest POST (server_ c) (clientApiUrl_ ++ "/createRoom")
                 [] (Some "application/json") (setupAuth c)
                 (RawBody create_room_request)]).

(** [MatrixClient::sendTypingNotification]. *)
Definition sendTypingNotification (c : MatrixClient) (roomid : QString)
           (timeoutInMillis : Z) : MatrixClient * list Request :=
  let userid := auth_user_id (settings c) in
  (c, [mkRequest PUT (server_ c)
                 (clientApiUrl_ ++ arg (arg "/rooms/%1/typing/%2" roomid) userid)
                 [] (Some "application/json") (setupAuth c)
                 (JsonBody [("typing", JBool true);
                            ("timeout", JDouble timeoutInMillis)])]).

(** [MatrixClient::removeTypingNotification]. *)
Definition removeTypingNotification (c : MatrixClient) (roomid : QString)
  : MatrixClient * list Request :=
  let userid := auth_user_id (settings c) in
  (c, [mkRequest PUT (server_ c)
                 (clientApiUrl_ ++ arg (arg "/rooms/%1/typing/%2" roomid) userid)
                 [] (Some "application/json") (setupAuth c)
                 (JsonBody [("typing", JBool false)])]).

(** [MatrixClient::readEvent]. *)
Definition readEvent (c : MatrixClient) (room_id eventid : QString)
  : MatrixClient * list Request :=
  (c, [mkRequest POST (server_ c)
                 (clientApiUrl_ ++ arg "/rooms/%1/read_markers" room_id)
                 [] (Some "application/json") (setupAuth c)
                 (JsonBody [("m.fully_read", JString eventid);
                            ("m.read", JString eventid)])]).

(** [MatrixClient::messages]. *)
Definition messages (c : MatrixClient) (roomid from_token : QString) (limit : Z)
  : MatrixClient * list Request :=
  let query := [("from", from_token); ("dir", "b"); ("limit", number limit)] in
  (c, [mkRequest GET (server_ c) (clientApiUrl_ ++ arg "/rooms/%1/messages" roomid)
                 query None (setupAuth c) NoBody]).

(** [MatrixClient::getOwnProfile]. *)
Definition getOwnProfile (c : MatrixClient) : MatrixClient * list Request :=
  let userid := auth_user_id (settings c) in
  (c, [mkRequest GET (server_ c) (clientApiUrl_ ++ "/profile/" ++ userid)
                 [] None (setupAuth c) NoBody]).

(** [MatrixClient::getOwnCommunities]. *)
Definition getOwnCommunities (c : MatrixClient) : MatrixClient * list Request :=
  (c, [mkRequest GET (server_ c) (clientApiUrl_ ++ "/joined_groups")
                 [] None (setupAuth c) NoBody]).

(** [MatrixClient::fetchCommunityProfile]. *)
Definition fetchCommunityProfile (c : MatrixClient) (communityId : QString)
  : MatrixClient * list Request :=
  (c, [mkRequest GET (server_ c)
                 (clientApiUrl_ ++ "/groups/" ++ communityId ++ "/profile")
                 [] None (setupAuth c) NoBody]).

(** [MatrixClient::fetchCommunityRooms]. *)
Definition fetchCommunityRooms (c : MatrixClient) (communityId : QString)
  : MatrixClient * list Request :=
  (c, [mkRequest GET (server_ c)
                 (clientApiUrl_ ++ "/groups/" ++ communityId ++ "/rooms")
                 [] None (setupAuth c) NoBody]).

(** [MatrixClient::getNotifications]. *)
Definition getNotifications (c : MatrixClient) : MatrixClient * list Request :=
  (c, [mkRequest GET (server_ c) (clientApiUrl_ ++ "/notifications")
                 [("limit", "5")] None (setupAuth c) NoBody]).

(** The member functions that address the client API with the token of
    the session, with their arguments. *)
Inductive Call : Type :=
| CSync
| CInitialSync
| CLogout
| CSendRoomMessage (ty : MessageType) (txnId : Z) (roomid msg mime : QString)
                   (media_size : Z) (url : QString)
| CRedactEvent (room_id eventid : QString)
| CUploadFilter (filter : QString)
| CJoinRoom (roomIdOrAlias : QString)
| CLeaveRoom (roomId : QString)
| CInviteUser (roomId user : QString)
| CCreateRoom (create_room_request : QByteArray)
| CSendTypingNotification (roomid : QString) (timeoutInMillis : Z)
| CRemoveTypingNotification (roomid : QString)
| CReadEvent (room_id eventid : QString)
| CMessages (roomid from_token : QString) (limit : Z)
| CGetOwnProfile
| CGetOwnCommunities
| CFetchCommunityProfile (communityId : QString)
| CFetchCommunityRooms (communityId : QString)
| CGetNotifications.

Definition call (k : Call) (c : MatrixClient) : MatrixClient * list Request :=
  match k with
  | CSync => sync c
  | CInitialSync => initialSync c
  | CLogout => logout c
  | CSendRoomMessage ty txnId roomid msg mime media_size url =>
    sendRoomMessage c ty txnId roomid msg mime media_size url
  | CRedactEvent room_id eventid => redactEvent c room_id eventid
  | CUploadFilter filter => uploadFilter c filter
  | CJoinRoom roomIdOrAlias => joinRoom c roomIdOrAlias
  | CLeaveRoom roomId => leaveRoom c roomId
  | CInviteUser roomId user => inviteUser c roomId user
  | CCreateRoom create_room_request => createRoom c create_room_request
  | CSendTypingNotification roomid timeoutInMillis =>
    sendTypingNotification c roomid timeoutInMillis
  | CRemoveTypingNotification roomid => removeTypingNotification c roomid
  | CReadEvent room_id eventid => readEvent c room_id eventid
  | CMessages roomid from_token limit => messages c roomid from_token limit
  | CGetOwnProfile => getOwnProfile c
  | CGetOwnCommunities => getOwnCommunities c
  | CFetchCommunityProfile communityId => fetchCommunityProfile c communityId
  | CFetchCommunityRooms communityId => fetchCommunityRooms c communityId
  | CGetNotifications => getNotifications c
  end.

(** ** Further continuations *)

(** The lambda of [registerUser], which captures [user], [pass] and
    [server]. *)
Definition registerUser_finished (user pass server : QString) (r : Reply)
  : list OtherSignal :=
  let registered :=
    match parse_Register (data r) with
    | Some res => [registerSuccess (register_user_id res) (register_hostname res)
                                   (register_access_token res)]
    | None => []
    end in
  match parse_RegistrationFlows (data r) with
  | Some res => app registered [registrationFlow user pass server (session res)]
  | None =>
    if failed r then
      match parse_Error (data r) with
      | Some res => app registered [registerError (error_msg res)]
      | None => app registered [registerError (errorString r)]
      end
    else registered
  end.

(** The lambda of [versions]. *)
Definition versions_finished (r : Reply) : list OtherSignal :=
  if error r then [versionError (errorString r)]
  else if status r =? 404 then
    [versionError
       "Versions endpoint was not found on the server. Possibly not a Matrix server"]
  else if 400 <=? status r then
    [versionError "An unknown error occured. Please try again."]
  else
    match parse_Versions (data r) with
    | Some _ => [versionSuccess]
    | None => [versionError "Malformed response. Possibly not a Matrix server"]
    end.

(** The lambda of [getOwnCommunities]. *)
Definition getOwnCommunities_finished (r : Reply) : list OtherSignal :=
  if 400 <=? status r then []
  else
    let json := object (fromJson (data r)) in
    if negb (contains json "groups") then []
    else [getOwnCommunitiesResponse (map toString (toArray (value json "groups")))].

(** The lambda of [fetchCommunityProfile]. *)
Definition fetchCommunityProfile_finished (communityId : QString) (r : Reply)
  : list OtherSignal :=
  if 400 <=? status r then []
  else [communityProfileRetrieved communityId (object (fromJson (data r)))].

(** The lambda of [fetchCommunityRooms]. *)
Definition fetchCommunityRooms_finished (communityId : QString) (r : Reply)
  : list OtherSignal :=
  if 400 <=? status r then []
  else [communityRoomsRetrieved communityId (object (fromJson (data r)))].

(** The lambda of [joinRoom]. *)
Definition joinRoom_finished (r : Reply) : list OtherSignal :=
  if failed r then
    let json := object (fromJson (data r)) in
    if contains json "error" then [joinFailed (toString (value json "error"))]
    else []
  else
    [joinedRoom (toString (value (object (fromJson (data r))) "room_id"))].

(** The lambda of [createRoom]. *)
Definition createRoom_finished (r : Reply) : list OtherSignal :=
  if failed r then
    let json := object (fromJson (data r)) in
    if contains json "error" then
      [roomCreationFailed (toString (value json "error"))]
    else []
  else
    [roomCreated (toString (value (object (fromJson (data r))) "room_id"))].

End MoreClient.

(** The registration and version parsers on the fragment of [Flat]: a
    registration is an object with the members [user_id] (an at sign, a
    local part, a colon, the host), [access_token], [home_server] and
    [device_id]; the flows and the versions are arrays, which no text of
    the fragment has. *)
Module FlatMtx.

(** The text after the first colon. *)
Fixpoint after_colon (s : string) : option string :=
  match s with
  | EmptyString => None
  | String c r => if Ascii.eqb c ":" then Some r else after_colon r
  end.

Definition lib : MtxLib := {|
  parse_Register d :=
    match Flat.read_object d with
    | Some o =>
      match Flat.string_field o "user_id", Flat.string_field o "access_token",
            Flat.string_field o "home_server", Flat.string_field o "device_id" with
      | Some u, Some t, Some _, Some _ =>
        if startsWith u "@" then
          match after_colon u with
          | Some h => Some (mkRegister u h t)
          | None => None
          end
        else None
      | _, _, _, _ => None
      end
    | None => None
    end;
  parse_RegistrationFlows _ := None;
  parse_Versions _ := None
|}.

End FlatMtx.

(** A registration answered with the registered account, but under a
    failure status. *)
Definition registered_body : QByteArray :=
  "{" ++ Flat.q "user_id" ++ ":" ++ Flat.q "@alice:matrix.org" ++ "," ++
  Flat.q "access_token" ++ ":" ++ Flat.q "secret" ++ "," ++
  Flat.q "home_server" ++ ":" ++ Flat.q "matrix.org" ++ "," ++
  Flat.q "device_id" ++ ":" ++ Flat.q "DEV" ++ "}".

Definition registered_500_reply : Reply :=
  mkReply 500 registered_body true "Internal Server Error".

Definition forbidden_reply : Reply :=
  mkReply 403
          ("{" ++ Flat.q "errcode" ++ ":" ++ Flat.q "M_FORBIDDEN" ++ "," ++
           Flat.q "error" ++ ":" ++ Flat.q "not allowed" ++ "}")
          true "Forbidden".

Definition login_ok_reply : Reply :=
  mkReply 200
          ("{" ++ Flat.q "user_id" ++ ":" ++ Flat.q "@alice:matrix.org" ++ "," ++
           Flat.q "access_token" ++ ":" ++ Flat.q "secret" ++ "}")
          false "".

Definition sync_ok_reply : Reply :=
  mkReply 200 ("{" ++ Flat.q "next_batch" ++ ":" ++ Flat.q "s72_2" ++ "}") false "".

Definition content_uri_reply : Reply :=
  mkReply 200
          ("{" ++ Flat.q "content_uri" ++ ":" ++ Flat.q "mxc://matrix.org/abc" ++ "}")
          false "".

Definition empty_object_reply : Reply := mkReply 200 "{}" false "".

(** An event id sent under a failure status. *)
Definition event_id_500_reply : Reply :=
  mkReply 500 (data event_sent_reply) true "Internal Server Error".

Definition port_client : MatrixClient :=
  mkClient (mkUrl "https" "localhost" 8448) "secret" "" 1 "{}" example_settings.

(** * Properties *)

(** Case analysis along the branches of a continuation. *)
Ltac case_branches :=
  repeat match goal with
         | |- context [if ?b then _ else _] => destruct b
         | |- context [match ?x with Some _ => _ | None => _ end] => destruct x
         | |- context [let '(_, _) := ?x in _] => destruct x
         end.

Ltac unfold_finished :=
  unfold login_finished, logout_finished, sync_finished, initialSync_finished,
    sendRoomMessage_finished, fetchRoomAvatar_finished, downloadFile_finished,
    uploadFile_finished, getUploadReply, uploadFilter_finished,
    redactEvent_finished.

(** ** Place markers *)

Example arg_first_marker : arg "%1:%2" "matrix.org" = "matrix.org:%2".
Proof. reflexivity. Qed.

Example arg_lowest_marker : arg_int "matrix.org:%2" 8448 = "matrix.org:8448".
Proof. reflexivity. Qed.

Example arg_all_occurrences : arg "%2 and %L2 and %3" "x" = "x and x and %3".
Proof. reflexivity. Qed.

Example arg_without_marker : arg "100%" "x" = "100%".
Proof. reflexivity. Qed.

(** A marker inside an argument is seen by the next [arg] of a chain. *)
Example arg_marker_in_argument :
  arg_int (arg "/rooms/%1/send/m.room.message/%2" "%1x") 5
  = "/rooms/5x/send/m.room.message/%2".
Proof. reflexivity. Qed.

Example number_negative : number (-17) = "-17".
Proof. reflexivity. Qed.

Example read_unknown_token_body :
  Flat.read_object unknown_token_body
  = Some [("errcode", JString "M_UNKNOWN_TOKEN"); ("error", JString "bad token")].
Proof. reflexivity. Qed.

Example read_no_body : Flat.read_object "" = None.
Proof. reflexivity. Qed.

Lemma append_empty_r (s : string) : s ++ "" = s.
Proof. induction s as [|c s IH]; simpl; [reflexivity | now rewrite IH]. Qed.

Lemma append_assoc (a b c : string) : (a ++ b) ++ c = a ++ (b ++ c).
Proof. induction a as [|x a IH]; simpl; [reflexivity | now rewrite IH]. Qed.

Lemma pieces_cons_plain (c : ascii) (s : string) :
  is_percent c = false -> pieces (String c s) = PChar c :: pieces s.
Proof. intros Hc. simpl. now rewrite Hc. Qed.

(** A marker free prefix is copied; the markers are those of the rest. *)
Lemma arg_plain_prefix (a b x : string) (m : nat) :
  plain a = true ->
  min_escape (pieces b) = Some m ->
  arg (a ++ b) x = a ++ replaceArgEscapes m x (pieces b).
Proof.
  intros Ha Hb.
  assert (Hmin : min_escape (pieces (a ++ b)) = Some m).
  { induction a as [|c a IH]; [exact Hb|].
    simpl in Ha. apply andb_prop in Ha as [Hc Ha].
    apply negb_true_iff in Hc.
    change (String c a ++ b) with (String c (a ++ b)).
    rewrite (pieces_cons_plain _ _ Hc). simpl. now apply IH. }
  unfold arg. rewrite Hmin. clear Hmin Hb.
  induction a as [|c a IH]; [reflexivity|].
  simpl in Ha. apply andb_prop in Ha as [Hc Ha].
  apply negb_true_iff in Hc.
  change (String c a ++ b) with (String c (a ++ b)).
  rewrite (pieces_cons_plain _ _ Hc). simpl. now rewrite IH.
Qed.

Lemma plain_append (a b : string) :
  plain (a ++ b) = plain a && plain b.
Proof.
  induction a as [|c a IH]; simpl; [reflexivity|].
  now rewrite IH, andb_assoc.
Qed.


(** The path of a redaction, for a room id and an event id without
    place marker. *)
Lemma redact_path_plain (room_id eventid : QString) (txn : Z) :
  plain room_id = true ->
  plain eventid = true ->
  clientApiUrl_ ++
  arg_int (arg (arg "/rooms/%1/redact/%2/%3" room_id) eventid) txn
  = "/_matrix/client/r0/rooms/" ++ room_id ++ "/redact/" ++ eventid ++ "/" ++
    number txn.
Proof.
  intros Hr He. unfold arg_int. generalize (number txn) as t. intros t.
  change (arg "/rooms/%1/redact/%2/%3" room_id)
    with (("/rooms/" ++ room_id) ++ "/redact/%2/%3").
  rewrite (arg_plain_prefix _ _ _ 2%nat); [| exact Hr | reflexivity].
  change (replaceArgEscapes 2 eventid (pieces "/redact/%2/%3"))
    with ("/redact/" ++ (eventid ++ "/%3")).
  replace (("/rooms/" ++ room_id) ++ "/redact/" ++ eventid ++ "/%3")
    with ((("/rooms/" ++ room_id) ++ "/redact/" ++ eventid) ++ "/%3")
    by now rewrite !append_assoc.
  rewrite (arg_plain_prefix _ _ _ 3%nat); [| | reflexivity].
  - change (replaceArgEscapes 3 t (pieces "/%3")) with ("/" ++ (t ++ "")).
    rewrite append_empty_r, !append_assoc. reflexivity.
  - rewrite !plain_append. cbn. now rewrite Hr, He.
Qed.



Section Properties.

Context {lib : JsonLib}.

(** ** Writes and their transaction identifier *)


(** ** The query of an incremental sync *)

(** C9, as the code has it: with a cursor stored, [sync] issues exactly
    one GET, on the sync path, and its query items are, in this order,
    [set_presence=online], [filter] with the client's filter value,
    [timeout=30000] and [since] with the stored cursor. *)
Theorem sync_query (c : MatrixClient) :
  isEmpty (next_batch_ c) = false ->
  map (fun r => (path r, query r)) (filter is_GET (snd (sync c)))
  = [("/_matrix/client/r0/sync",
      [("set_presence", "online"); ("filter", filter_ c);
       ("timeout", "30000"); ("since", next_batch_ c)])].
Proof.
  intros Hc. unfold sync, uploadFilter.
  destruct (startsWith (filter_ c) "{");
    [destruct (isNull (fromJson (filter_ c)) || negb (isObject (fromJson (filter_ c))))|];
    rewrite Hc; reflexivity.
Qed.

(** ** The reply to a message *)

(** C10: for a message of a known type [sendRoomMessage] issues one
    request, and the continuation of that request emits exactly one
    signal: [messageSent] with the [event_id] of the reply, the room and
    the transaction identifier when the status is neither 0 nor 400 or
    more, the body is not empty, is a JSON object and has an [event_id]
    member, and [messageSendFailed] with the room and the transaction
    identifier of the dispatch in every other case. *)
Theorem sendRoomMessage_outcome
        (c : MatrixClient) (ty : MessageType) (txnId : Z)
        (roomid msg mime : QString) (media_size : Z) (url : QString)
        (b : QJsonObject) (r : Reply) :
  message_body ty msg mime media_size url = Some b ->
  let good :=
    failed r = false /\ isEmpty (data r) = false /\
    isObject (fromJson (data r)) = true /\
    contains (object (fromJson (data r))) "event_id" = true in
  let emitted := snd (sendRoomMessage_finished c roomid txnId r) in
  length (snd (sendRoomMessage c ty txnId roomid msg mime media_size url)) = 1%nat
  /\ (good ->
      emitted = [messageSent
                   (toString (value (object (fromJson (data r))) "event_id"))
                   roomid txnId])
  /\ (~ good -> emitted = [messageSendFailed roomid txnId])
  /\ ((exists e room t, In (messageSent e room t) emitted) -> good)
  /\ fst (sendRoomMessage_finished c roomid txnId r) = c.
Proof.
  intros Hb good emitted. subst good emitted.
  unfold sendRoomMessage, sendRoomMessage_finished. rewrite Hb.
  destruct (failed r); [|destruct (isEmpty (data r));
    [|destruct (isObject (fromJson (data r)));
      [destruct (contains (object (fromJson (data r))) "event_id")|]]];
    simpl; (split; [reflexivity|]);
    (split; [intros (H1 & H2 & H3 & H4); try discriminate; reflexivity|]);
    (split; [intros H; try reflexivity; exfalso; apply H; now repeat split|]);
    (split; [|reflexivity]);
    intros (e & room & t & [H|[]]); try discriminate; now repeat split.
Qed.

(** ** The transaction allocator *)

Lemma wrap64_small (z : Z) :
  - 2 ^ 63 <= z <= TransactionId_max -> wrap64 z = z.
Proof.
  unfold wrap64, TransactionId_max. intros Hz.
  rewrite Z.mod_small; lia.
Qed.

(** A write call hands out the counter and moves it on by one
    allocation; nothing else of the client object changes. *)
Lemma write_allocates (c : MatrixClient) (w : Write) :
  fst (snd (write c w)) = txn_id_ c /\
  fst (write c w) = snd (incrementTransactionId c).
Proof.
  destruct w as [room_id eventid | ty roomid msg mime media_size url];
    unfold write, redactEvent, sendRoomMessage, incrementTransactionId;
    [|destruct (message_body ty msg mime media_size url)]; simpl; auto.
Qed.

Lemma writes_cons (c : MatrixClient) (w : Write) (ws : list Write) :
  transactionIds c (w :: ws)
  = txn_id_ c :: transactionIds (snd (incrementTransactionId c)) ws.
Proof.
  unfold transactionIds. cbn [writes].
  destruct (write_allocates c w) as [Hid Hc].
  destruct (write c w) as [c1 out]. cbn [fst snd] in Hid, Hc. subst c1.
  destruct (writes (snd (incrementTransactionId c)) ws) as [c2 outs].
  cbn [fst snd map]. now rewrite Hid.
Qed.

Lemma transactionIds_run (ws : list Write) : forall c : MatrixClient,
  - 2 ^ 63 <= txn_id_ c ->
  txn_id_ c + Z.of_nat (length ws) - 1 <= TransactionId_max ->
  transactionIds c ws
  = map (fun i => txn_id_ c + Z.of_nat i) (seq 0 (length ws)).
Proof.
  induction ws as [|w ws IH]; intros c Hlo Hhi; [reflexivity|].
  rewrite writes_cons. cbn [length seq map]. f_equal; [lia|].
  destruct ws as [|w' ws']; [reflexivity|].
  cbn [length] in Hhi.
  assert (Hnext : txn_id_ (snd (incrementTransactionId c)) = txn_id_ c + 1).
  { simpl. apply wrap64_small. unfold TransactionId_max in *. lia. }
  rewrite IH; rewrite ?Hnext; [| lia | cbn [length]; lia].
  rewrite <- seq_shift, map_map.
  apply map_ext. intros i. lia.
Qed.

Lemma shifted_seq_sorted (a : Z) (n : nat) : forall s : nat,
  StronglySorted Z.lt (map (fun i => a + Z.of_nat i) (seq s n)).
Proof.
  induction n as [|n IH]; intros s; simpl; constructor; [apply IH|].
  apply Forall_forall. intros x Hx.
  apply in_map_iff in Hx as (i & <- & Hi). apply in_seq in Hi. lia.
Qed.

Lemma sorted_NoDup (l : list Z) : StronglySorted Z.lt l -> NoDup l.
Proof.
  induction 1 as [|x l Hs IH Hall]; constructor; [|exact IH].
  intros Hin. rewrite Forall_forall in Hall. specialize (Hall x Hin). lia.
Qed.

(** A redaction puts the identifier it allocated at the end of its path. *)
Lemma redactEvent_request (c : MatrixClient) (room_id eventid : QString) :
  plain room_id = true ->
  plain eventid = true ->
  redactEvent c room_id eventid
  = (snd (incrementTransactionId c),
     [mkRequest PUT (server_ c)
                ("/_matrix/client/r0/rooms/" ++ room_id ++ "/redact/" ++
                 eventid ++ "/" ++ number (txn_id_ c))
                [] (Some "application/json") (setupAuth c) (JsonBody [])]).
Proof.
  intros Hr He. unfold redactEvent, incrementTransactionId.
  now rewrite (redact_path_plain room_id eventid (txn_id_ c) Hr He).
Qed.

(** C1: the identifiers that a sequence of write calls (redactions,
    messages) obtains from the allocator are the counter of the session
    and its successors, one per call: strictly increasing in call order
    and pairwise distinct.  Each call returns the counter and then
    increments it, and a redaction writes the identifier it obtained at
    the end of its path.  The counter is taken in the 64-bit range and
    the run short of its upper end. *)
Theorem transactionIds_increasing (c : MatrixClient) (ws : list Write) :
  - 2 ^ 63 <= txn_id_ c ->
  txn_id_ c + Z.of_nat (length ws) - 1 <= TransactionId_max ->
  transactionIds c ws
  = map (fun i => txn_id_ c + Z.of_nat i) (seq 0 (length ws))
  /\ StronglySorted Z.lt (transactionIds c ws)
  /\ NoDup (transactionIds c ws)
  /\ (forall w : Write,
        fst (snd (write c w)) = txn_id_ c /\
        (txn_id_ c < TransactionId_max ->
         txn_id_ (fst (write c w)) = txn_id_ c + 1))
  /\ (forall room_id eventid : QString,
        plain room_id = true -> plain eventid = true ->
        map path (snd (redactEvent c room_id eventid))
        = ["/_matrix/client/r0/rooms/" ++ room_id ++ "/redact/" ++
           eventid ++ "/" ++ number (txn_id_ c)]).
Proof.
  intros Hlo Hhi.
  pose proof (transactionIds_run ws c Hlo Hhi) as Hrun.
  assert (Hs : StronglySorted Z.lt (transactionIds c ws)).
  { rewrite Hrun. apply shifted_seq_sorted. }
  repeat split; [exact Hrun | exact Hs | now apply sorted_NoDup | | |].
  - apply write_allocates.
  - intros Hlt. destruct (write_allocates c w) as [_ ->]. simpl.
    apply wrap64_small. unfold TransactionId_max in *. lia.
  - intros room_id eventid Hr He.
    now rewrite (redactEvent_request c room_id eventid Hr He).
Qed.

(** ** The invalid token signal *)

Lemma failed_not_200 (r : Reply) : failed r = true -> (status r =? 200) = false.
Proof.
  unfold failed. intros H. apply orb_true_iff in H as [H|H].
  - apply Z.eqb_eq in H. apply Z.eqb_neq. lia.
  - apply Z.leb_le in H. apply Z.eqb_neq. lia.
Qed.

(** C2, as the code has it: the continuation of [sync], for a reply with
    status 0 or at least 400 whose body parses as an error with code
    [M_UNKNOWN_TOKEN], emits [invalidToken] and nothing else and leaves
    the client object as it is; no other continuation ever emits
    [invalidToken].  On such a reply the continuations of an initial
    sync, a message, a file upload and a redaction emit the failure
    signal of their request, that of a login emits [loginError] when the
    status is 400 or more, and those of a logout, a room avatar, a file
    download and a filter upload emit nothing. *)
Theorem sync_invalidToken (c : MatrixClient) (r : Reply) (e : Error) :
  failed r = true ->
  parse_Error (data r) = Some e ->
  errcode e = M_UNKNOWN_TOKEN ->
  sync_finished c r = (c, [invalidToken])
  /\ (forall (p : Pending) (c' : MatrixClient) (r' : Reply),
        p <> PSync -> ~ In invalidToken (snd (finished p c' r')))
  /\ (400 <= status r ->
      exists msg, snd (finished PLogin c r) = [loginError msg])
  /\ snd (finished PLogout c r) = []
  /\ snd (finished PInitialSync c r) = [initialSyncFailed (Some (status r))]
  /\ (forall roomid txnId,
        snd (finished (PSendRoomMessage roomid txnId) c r)
        = [messageSendFailed roomid txnId])
  /\ (forall roomid avatar_url,
        snd (finished (PFetchRoomAvatar roomid avatar_url) c r) = [])
  /\ snd (finished PDownloadFile c r) = []
  /\ (forall roomid filename mime size,
        snd (finished (PUploadFile roomid filename mime size) c r)
        = [uploadFailed (status r)
                        (arg "Media upload failed - %1" (errorString r))])
  /\ finished PUploadFilter c r = (c, [])
  /\ (forall room_id eventid,
        snd (finished (PRedactEvent room_id eventid) c r)
        = [redactionFailed (error_msg e)]).
Proof.
  intros Hf He Hc. split; [|split].
  - unfold sync_finished. now rewrite Hf, He, Hc.
  - intros p c' r' Hp.
    destruct p; [| |congruence| | | | | | |]; cbn [finished];
      unfold_finished; case_branches; simpl; intuition discriminate.
  - cbn [finished]. unfold_finished.
    rewrite Hf, He, (failed_not_200 r Hf). cbn [negb fst snd objIsEmpty].
    split; [|repeat split].
    intros H400.
    destruct (status r =? 403); [eexists; reflexivity|].
    destruct (status r =? 404); [eexists; reflexivity|].
    replace (400 <=? status r) with true by (symmetry; now apply Z.leb_le).
    eexists; reflexivity.
Qed.

(** ** The sync filter *)

Lemma sync_requests (c : MatrixClient) :
  sync c
  = (c, app (if startsWith (filter_ c) "{" && isObject (fromJson (filter_ c))
             then [filter_upload c] else [])
            (if isEmpty (next_batch_ c) then []
             else [mkRequest GET (server_ c) "/_matrix/client/r0/sync"
                             [("set_presence", "online"); ("filter", filter_ c);
                              ("timeout", "30000"); ("since", next_batch_ c)]
                             None (setupAuth c) NoBody])).
Proof.
  unfold sync, uploadFilter, filter_upload.
  destruct (startsWith (filter_ c) "{"); simpl;
    [destruct (fromJson (filter_ c)); simpl|];
    destruct (isEmpty (next_batch_ c)); reflexivity.
Qed.

(** C3, as the code has it: every call of [sync] made while the filter
    of the client is a literal (it starts with a brace and parses as a
    JSON object) posts one upload of it; the continuation of an upload
    whose status is neither 0 nor 400 or more stores the [filter_id] of
    the reply as the filter; no other continuation changes the filter,
    nor do [sync] and [reset]; and with a stored filter that does not
    start with a brace [sync] posts no upload. *)
Theorem filter_upload_per_sync (c : MatrixClient) (r : Reply) :
  startsWith (filter_ c) "{" = true ->
  isObject (fromJson (filter_ c)) = true ->
  failed r = false ->
  let c' := fst (uploadFilter_finished c r) in
  let filter_id := toString (value (object (fromJson (data r))) "filter_id") in
  fst (sync c) = c
  /\ filter is_POST (snd (sync c)) = [filter_upload c]
  /\ filter_ c' = filter_id
  /\ (startsWith filter_id "{" = false -> filter is_POST (snd (sync c')) = [])
  /\ (forall (p : Pending) (c0 : MatrixClient) (r0 : Reply),
        p <> PUploadFilter -> filter_ (fst (finished p c0 r0)) = filter_ c0)
  /\ (forall c0 : MatrixClient,
        filter_ (fst (sync c0)) = filter_ c0 /\
        filter_ (reset c0) = filter_ c0).
Proof.
  intros Hlit Hobj Hok c' filter_id. subst c' filter_id.
  rewrite !sync_requests. cbn [fst snd]. rewrite Hlit, Hobj.
  unfold uploadFilter_finished. rewrite Hok. cbn [fst filter_ andb].
  repeat split.
  - destruct (isEmpty (next_batch_ c)); reflexivity.
  - intros ->. cbn [andb]. cbn [next_batch_].
    destruct (isEmpty (next_batch_ c)); reflexivity.
  - intros p c0 r0 Hp.
    destruct p; [| | | | | | | |congruence|]; cbn [finished];
      unfold_finished; case_branches; reflexivity.
  - now rewrite sync_requests.
Qed.

(** ** Polling without a cursor *)

(** C4, as the code has it: with an empty [next_batch_], [sync] leaves
    the client object as it is and issues no sync request; the one
    request it can still issue is the upload of a literal filter, posted
    before the cursor is looked at.  With a filter that does not start
    with a brace, or does not parse as a JSON object, it issues no
    request at all. *)
Theorem sync_without_cursor (c : MatrixClient) :
  isEmpty (next_batch_ c) = true ->
  fst (sync c) = c
  /\ filter is_GET (snd (sync c)) = []
  /\ snd (sync c)
     = (if startsWith (filter_ c) "{" && isObject (fromJson (filter_ c))
        then [filter_upload c] else [])
  /\ (startsWith (filter_ c) "{" = false -> snd (sync c) = []).
Proof.
  intros Hc. rewrite sync_requests, Hc, app_nil_r. cbn [fst snd].
  repeat split.
  - destruct (startsWith (filter_ c) "{" && isObject (fromJson (filter_ c)));
      reflexivity.
  - now intros ->.
Qed.

(** ** A failed incremental sync *)

(** C5: the continuation of [sync] never changes the stored cursor.  A
    failure whose body parses as an error with a code other than
    [M_UNKNOWN_TOKEN] is reported through [syncError]; a failure whose
    body parses neither as an error nor as a sync response, such as a
    reply that never arrived, emits no signal. *)
Theorem sync_failure_report (c : MatrixClient) (r : Reply) :
  failed r = true ->
  next_batch_ (fst (sync_finished c r)) = next_batch_ c
  /\ (forall e : Error,
        parse_Error (data r) = Some e -> errcode e <> M_UNKNOWN_TOKEN ->
        snd (sync_finished c r) = [syncError (error_msg e)])
  /\ (parse_Error (data r) = None -> parse_Sync (data r) = None ->
      snd (sync_finished c r) = []).
Proof.
  intros Hf. unfold sync_finished. rewrite Hf. repeat split.
  - destruct (parse_Error (data r)) as [e|];
      [destruct (ErrorCode_eqb (errcode e) M_UNKNOWN_TOKEN)
      |destruct (parse_Sync (data r))]; reflexivity.
  - intros e -> Hne.
    destruct (errcode e); try reflexivity. now elim Hne.
  - now intros -> ->.
Qed.

(** ** Empty bodies of media transfers *)

(** C6, as the code has it: for a reply with a 2xx status and an empty
    body, the continuation of [downloadFile] emits nothing, while
    [getUploadReply] emits [uploadFailed] with the status and the text
    for an empty response and returns the empty object, so that the
    continuation of an upload emits that failure and nothing else. *)
Theorem empty_transfer_body (r : Reply) :
  200 <= status r < 300 ->
  isEmpty (data r) = true ->
  downloadFile_finished r = []
  /\ getUploadReply r
     = ([], [uploadFailed (status r) "Media upload failed - Empty response"])
  /\ (forall (c : MatrixClient) (roomid filename mime : QString) (size : Z),
        uploadFile_finished c roomid filename mime size r
        = (c, [uploadFailed (status r) "Media upload failed - Empty response"])).
Proof.
  intros Hs He.
  assert (Hf : failed r = false).
  { unfold failed. apply orb_false_iff. split; [apply Z.eqb_neq | apply Z.leb_gt]; lia. }
  unfold uploadFile_finished, getUploadReply, downloadFile_finished.
  rewrite Hf, He. repeat split.
Qed.

(** ** One report per request *)

Lemma contains_not_empty (o : QJsonObject) (k : QString) :
  contains o k = true -> objIsEmpty o = false.
Proof. destruct o; [discriminate | reflexivity]. Qed.

(** C7, as the code has it: the continuation of a login, logout, sync,
    initial sync, message, room avatar, file download, file upload,
    filter upload or redaction request emits at most one signal.  The
    continuation of [logout] emits [loggedOut] for status 200 and nothing
    for any other status; that of [fetchRoomAvatar] emits
    [roomAvatarRetrieved] for a reply with a status other than 0 and
    below 400 and a body that is not empty, and nothing otherwise. *)
Theorem finished_reports_at_most_once
        (p : Pending) (c : MatrixClient) (r : Reply) :
  (length (snd (finished p c r)) <= 1)%nat
  /\ snd (finished PLogout c r)
     = (if status r =? 200 then [loggedOut] else [])
  /\ (forall roomid avatar_url : QString,
        snd (finished (PFetchRoomAvatar roomid avatar_url) c r)
        = (if failed r || isEmpty (data r) then []
           else [roomAvatarRetrieved roomid (data r) avatar_url (data r)])).
Proof.
  repeat split.
  - destruct p; cbn [finished];
      try (unfold_finished; case_branches; simpl; lia).
    unfold uploadFile_finished, getUploadReply.
    destruct (failed r); [simpl; lia|].
    destruct (isEmpty (data r)); [simpl; lia|].
    destruct (isObject (fromJson (data r))); [|simpl; lia].
    destruct (contains (object (fromJson (data r))) "content_uri") eqn:Hc;
      [|simpl; lia].
    cbn [negb]. rewrite (contains_not_empty _ _ Hc). simpl. lia.
  - simpl. unfold logout_finished. destruct (status r =? 200); reflexivity.
  - intros roomid avatar_url. simpl. unfold fetchRoomAvatar_finished.
    destruct (failed r); [|destruct (isEmpty (data r))]; reflexivity.
Qed.

End Properties.

(** * The properties at work

    The theorems applied to concrete sessions and replies, read by
    [Flat.lib], and the runs on which the code departs from the
    specification. *)

(** Three write calls on a session whose counter is 1 obtain 1, 2, 3. *)
Lemma transactionIds_increasing_witness :
  (- 2 ^ 63 <= txn_id_ synced_client
   /\ txn_id_ synced_client + Z.of_nat (length three_writes) - 1
      <= TransactionId_max)
  /\ transactionIds synced_client three_writes = [1; 2; 3]
  /\ StronglySorted Z.lt (transactionIds synced_client three_writes).
Proof.
  assert (H1 : - 2 ^ 63 <= txn_id_ synced_client) by (vm_compute; discriminate).
  assert (H2 : txn_id_ synced_client + Z.of_nat (length three_writes) - 1
               <= TransactionId_max) by (vm_compute; discriminate).
  destruct (transactionIds_increasing synced_client three_writes H1 H2)
    as (Hrun & Hsorted & _).
  split; [split; assumption | split; [exact Hrun | exact Hsorted]].
Defined.



(** C9: the sync request of a session with cursor [s72_1] and filter
    handle [abc] carries four query items, the first of which,
    [set_presence], is none of [since], [timeout] and [filter]. *)
Lemma sync_query_has_set_presence :
  map query (snd (sync (lib := Flat.lib) resolved_client))
  = [[("set_presence", "online"); ("filter", "abc");
      ("timeout", "30000"); ("since", "s72_1")]]
  /\ forall req : Request,
       In req (snd (sync (lib := Flat.lib) resolved_client)) ->
       ~ Permutation (map fst (query req)) ["since"; "timeout"; "filter"].
Proof.
  split; [reflexivity|].
  intros req [<-|[]] Hperm.
  apply Permutation_length in Hperm. discriminate.
Qed.

Lemma sync_query_witness :
  isEmpty (next_batch_ resolved_client) = false
  /\ map (fun r => (path r, query r))
         (filter is_GET (snd (sync (lib := Flat.lib) resolved_client)))
     = [("/_matrix/client/r0/sync",
         [("set_presence", "online"); ("filter", "abc");
          ("timeout", "30000"); ("since", "s72_1")])].
Proof.
  split; [reflexivity|].
  exact (sync_query (lib := Flat.lib) resolved_client eq_refl).
Defined.

(** A message acknowledged with an event id. *)
Lemma sendRoomMessage_outcome_witness :
  message_body Text "hello" "" 0 ""
  = Some [("msgtype", JString "m.text"); ("body", JString "hello")]
  /\ snd (sendRoomMessage_finished (lib := Flat.lib) synced_client
                                    "!room:matrix.org" 5 event_sent_reply)
     = [messageSent "$ev1" "!room:matrix.org" 5].
Proof.
  split; [reflexivity|].
  pose proof (sendRoomMessage_outcome (lib := Flat.lib)
                synced_client Text 5 "!room:matrix.org" "hello" "" 0 "" _
                event_sent_reply eq_refl) as (_ & Hgood & _).
  apply Hgood. repeat split.
Defined.

(** C2: the status 401 reply with the body of an unknown token, handed
    to the continuation of a redaction and to that of a login, comes out
    as an ordinary failure of that request. *)
Lemma unknown_token_ordinary_error :
  parse_Error (JsonLib := Flat.lib) (data unknown_token_reply)
  = Some (mkError M_UNKNOWN_TOKEN "bad token")
  /\ snd (finished (lib := Flat.lib) (PRedactEvent "!room:matrix.org" "$ev1")
                    synced_client unknown_token_reply)
     = [redactionFailed "bad token"]
  /\ snd (finished (lib := Flat.lib) PLogin synced_client unknown_token_reply)
     = [loginError "An unknown error occured. Please try again."]
  /\ ~ In invalidToken
         (snd (finished (lib := Flat.lib) (PRedactEvent "!room:matrix.org" "$ev1")
                        synced_client unknown_token_reply)).
Proof.
  repeat split. intros [H|[]]. discriminate.
Qed.

Lemma sync_invalidToken_witness :
  (failed unknown_token_reply = true
   /\ parse_Error (JsonLib := Flat.lib) (data unknown_token_reply)
      = Some (mkError M_UNKNOWN_TOKEN "bad token"))
  /\ sync_finished (lib := Flat.lib) synced_client unknown_token_reply
     = (synced_client, [invalidToken]).
Proof.
  split; [split; reflexivity|].
  exact (proj1 (sync_invalidToken (lib := Flat.lib) synced_client
                  unknown_token_reply _ eq_refl eq_refl eq_refl)).
Defined.

(** C3: two calls of [sync] on a session with the literal filter, before
    any reply arrived, post two uploads of it. *)
Lemma literal_filter_uploaded_twice :
  startsWith (filter_ synced_client) "{" = true
  /\ (let first := sync (lib := Flat.lib) synced_client in
      let second := sync (lib := Flat.lib) (fst first) in
      filter is_POST (snd first ++ snd second)%list
      = [filter_upload (lib := Flat.lib) synced_client;
         filter_upload (lib := Flat.lib) synced_client]).
Proof. split; reflexivity. Qed.

Lemma filter_upload_per_sync_witness :
  (startsWith (filter_ synced_client) "{" = true
   /\ isObject (fromJson (JsonLib := Flat.lib) (filter_ synced_client)) = true
   /\ failed filter_created_reply = false)
  /\ filter_ (fst (uploadFilter_finished (lib := Flat.lib) synced_client
                                         filter_created_reply)) = "abc"
  /\ filter is_POST
       (snd (sync (lib := Flat.lib)
                  (fst (uploadFilter_finished (lib := Flat.lib) synced_client
                                              filter_created_reply)))) = [].
Proof.
  pose proof (filter_upload_per_sync (lib := Flat.lib) synced_client
                filter_created_reply eq_refl eq_refl eq_refl)
    as (_ & _ & Hid & Hnone & _).
  split; [repeat split | split; [exact Hid | exact (Hnone eq_refl)]].
Defined.

(** C4: [sync] on a fresh session, without cursor, posts the upload of
    the literal filter. *)
Lemma sync_without_cursor_uploads_filter :
  isEmpty (next_batch_ fresh_client) = true
  /\ snd (sync (lib := Flat.lib) fresh_client)
     = [mkRequest POST example_server
                  "/_matrix/client/r0/user/@alice:matrix.org/filter" []
                  (Some "application/json") (Some "secret") (JsonBody [])].
Proof. split; reflexivity. Qed.

Lemma sync_without_cursor_witness :
  isEmpty (next_batch_ fresh_client) = true
  /\ filter is_GET (snd (sync (lib := Flat.lib) fresh_client)) = []
  /\ snd (sync (lib := Flat.lib)
               (mkClient example_server "secret" "" 1 "abc" example_settings))
     = [].
Proof.
  split; [reflexivity|]. split.
  - exact (proj1 (proj2 (sync_without_cursor (lib := Flat.lib) fresh_client
                           eq_refl))).
  - pose proof (sync_without_cursor (lib := Flat.lib)
                  (mkClient example_server "secret" "" 1 "abc" example_settings)
                  eq_refl) as (_ & _ & _ & Hnone).
    exact (Hnone eq_refl).
Defined.

(** C5: a sync request that got no response: status 0, no body. *)
Lemma sync_failure_report_witness :
  (failed no_response_reply = true
   /\ parse_Error (JsonLib := Flat.lib) (data no_response_reply) = None
   /\ parse_Sync (JsonLib := Flat.lib) (data no_response_reply) = None)
  /\ sync_finished (lib := Flat.lib) synced_client no_response_reply
     = (synced_client, []).
Proof.
  pose proof (sync_failure_report (lib := Flat.lib) synced_client
                no_response_reply eq_refl) as (Hcursor & _ & Hsilent).
  split; [repeat split|].
  specialize (Hsilent eq_refl eq_refl).
  destruct (sync_finished (lib := Flat.lib) synced_client no_response_reply)
    as [c' out] eqn:E.
  cbn [snd] in Hsilent. subst out.
  vm_compute in E. injection E as <-. reflexivity.
Defined.

(** C6: the continuation of a file download on a status 200 reply
    without body emits nothing, neither bytes nor a failure. *)
Lemma empty_download_is_silent :
  status empty_ok_reply = 200 /\ data empty_ok_reply = ""
  /\ downloadFile_finished empty_ok_reply = []
  /\ snd (finished (lib := Flat.lib) PDownloadFile synced_client empty_ok_reply)
     = [].
Proof. repeat split. Qed.

Lemma empty_transfer_body_witness :
  (200 <= status empty_ok_reply < 300 /\ isEmpty (data empty_ok_reply) = true)
  /\ downloadFile_finished empty_ok_reply = []
  /\ getUploadReply (lib := Flat.lib) empty_ok_reply
     = ([], [uploadFailed 200 "Media upload failed - Empty response"]).
Proof.
  assert (Hs : 200 <= status empty_ok_reply < 300)
    by (split; vm_compute; [discriminate | reflexivity]).
  pose proof (empty_transfer_body (lib := Flat.lib) empty_ok_reply Hs eq_refl)
    as (Hdown & Hup & _).
  split; [split; [exact Hs | reflexivity] | split; [exact Hdown | exact Hup]].
Defined.

(** C7: a logout answered with status 500 and a room avatar request
    that got no response end without any signal. *)
Lemma failed_logout_is_silent :
  finished (lib := Flat.lib) PLogout synced_client server_error_reply
  = (synced_client, [])
  /\ finished (lib := Flat.lib)
              (PFetchRoomAvatar "!room:matrix.org" "mxc://matrix.org/abc")
              synced_client no_response_reply
     = (synced_client, []).
Proof. split; reflexivity. Qed.

(** * Further properties of the continuations *)

Lemma value_missing (o : QJsonObject) (k : QString) :
  contains o k = false -> value o k = JUndefined.
Proof.
  induction o as [|[k' v] o IH]; simpl; [reflexivity|].
  destruct (String.eqb k' k); [discriminate | exact IH].
Qed.

(** The host and port text of a login, for a host without place marker. *)
Lemma host_port_plain (h : QString) (p : Z) :
  plain h = true -> arg_int (arg "%1:%2" h) p = h ++ ":" ++ number p.
Proof.
  intros Hh. unfold arg_int. generalize (number p) as t. intros t.
  change (arg "%1:%2" h) with (h ++ ":%2").
  rewrite (arg_plain_prefix _ _ _ 2%nat); [| exact Hh | reflexivity].
  change (replaceArgEscapes 2 t (pieces ":%2")) with (":" ++ (t ++ "")).
  now rewrite append_empty_r.
Qed.

Section MoreProperties.

Context {lib : JsonLib} {mtx : MtxLib}.

(** X1: the continuation of [login] emits exactly one signal and leaves
    the client object as it is.  The signal is [loginSuccess] exactly
    when the status is below 400, the reply carries no network error and
    the body parses as a login response; status 403 gives the wrong
    password text whatever the body and the error flag are. *)
Theorem login_finished_outcome (c : MatrixClient) (r : Reply) :
  let out := snd (login_finished c r) in
  length out = 1%nat
  /\ fst (login_finished c r) = c
  /\ ((exists u h t, out = [loginSuccess u h t]) <->
      (status r < 400 /\ error r = false /\ parse_Login (data r) <> None))
  /\ (status r = 403 -> out = [loginError "Wrong username or password"]).
Proof.
  unfold login_finished.
  destruct (Z.eqb_spec (status r) 403) as [H403|H403];
    [|destruct (Z.eqb_spec (status r) 404) as [H404|H404];
      [|destruct (Z.leb_spec 400 (status r)) as [H400|H400];
        [|destruct (error r) eqn:Herr;
          [|destruct (parse_Login (data r)) as [l|] eqn:Hl]]]];
    cbn [snd fst length];
    (split; [reflexivity|]); (split; [reflexivity|]);
    (split; [split|intros H; try reflexivity; lia]).
  all: try (intros (u & h & t & H); discriminate).
  all: try (intros (Hs & He & Hp); lia || discriminate || congruence).
  - intros _. repeat split; [lia | discriminate].
  - intros _. eauto.
Qed.

(** X2: on a successful login the host name handed to [loginSuccess] is
    the host of the server followed by a colon and the port when the
    port is positive, and the host alone otherwise.  The host is taken
    without percent sign. *)
Theorem login_hostname (c : MatrixClient) (r : Reply) (l : Login) :
  status r < 400 ->
  error r = false ->
  parse_Login (data r) = Some l ->
  plain (host (server_ c)) = true ->
  snd (login_finished c r)
  = [loginSuccess (login_user_id l)
                  (if 0 <? port (server_ c)
                   then host (server_ c) ++ ":" ++ number (port (server_ c))
                   else host (server_ c))
                  (login_access_token l)].
Proof.
  intros Hs He Hl Hh. unfold login_finished.
  replace (status r =? 403) with false by (symmetry; apply Z.eqb_neq; lia).
  replace (status r =? 404) with false by (symmetry; apply Z.eqb_neq; lia).
  replace (400 <=? status r) with false by (symmetry; apply Z.leb_gt; lia).
  rewrite He, Hl. cbn [snd].
  destruct (0 <? port (server_ c)); [|reflexivity].
  now rewrite (host_port_plain _ _ Hh).
Qed.

(** X3: no continuation but that of the filter upload changes the
    client object.  In particular the continuations of [initialSync] and
    [sync] do not store the cursor of the reply: [sync] called after
    them issues the requests it issued before. *)
Theorem finished_keeps_client (p : Pending) (c : MatrixClient) (r : Reply) :
  p <> PUploadFilter ->
  fst (finished p c r) = c
  /\ sync (fst (finished p c r)) = sync c.
Proof.
  intros Hp.
  assert (H : fst (finished p c r) = c).
  { destruct p; [| | | | | | | |congruence|]; cbn [finished];
      unfold_finished; case_branches; reflexivity. }
  now rewrite H.
Qed.

(** X4: the continuation of [redactEvent] emits exactly one signal.  It
    is [redactionCompleted] for the room and event of the request
    exactly when the body parses as an event id and it is not the case
    that the status is a failure and the body parses as an error; so a
    failure status whose body is an event id and not an error is
    reported as completed. *)
Theorem redactEvent_finished_outcome
        (c : MatrixClient) (room_id eventid : QString) (r : Reply) :
  let out := snd (redactEvent_finished c room_id eventid r) in
  length out = 1%nat
  /\ (out = [redactionCompleted room_id eventid] <->
      (parse_EventId (data r) <> None /\
       ~ (failed r = true /\ parse_Error (data r) <> None)))
  /\ (forall e : Error,
        failed r = true -> parse_Error (data r) = Some e ->
        out = [redactionFailed (error_msg e)]).
Proof.
  unfold redactEvent_finished.
  destruct (failed r); [destruct (parse_Error (data r)) as [e|]|];
    destruct (parse_EventId (data r)); cbn [snd length];
    (split; [reflexivity|]); (split; [split|]).
  all: try (intros e' H1 H2; congruence || discriminate).
  all: try (intros H; discriminate).
  all: try (intros _; reflexivity).
  all: try (intros _; split; [discriminate | intros [H1 H2]; congruence]).
  all: try (intros [H1 H2]; congruence).
  all: intros [H1 H2]; exfalso; apply H2; split; [reflexivity | discriminate].
Qed.

(** X5: the continuation of [sync] emits [syncCompleted] exactly when
    the body parses as a sync response and it is not the case that the
    status is a failure and the body parses as an error.  For a status
    other than 0 and below 400 it emits neither [invalidToken] nor
    [syncError], whatever the body is. *)
Theorem sync_finished_outcome (c : MatrixClient) (r : Reply) :
  let out := snd (sync_finished c r) in
  ((exists s, out = [syncCompleted s]) <->
   (parse_Sync (data r) <> None /\
    ~ (failed r = true /\ parse_Error (data r) <> None)))
  /\ (failed r = false ->
      ~ In invalidToken out /\ forall m, ~ In (syncError m) out)
  /\ (forall s, In (syncCompleted s) out -> parse_Sync (data r) = Some s).
Proof.
  unfold sync_finished.
  destruct (failed r);
    [destruct (parse_Error (data r)) as [e|];
     [destruct (ErrorCode_eqb (errcode e) M_UNKNOWN_TOKEN)|]|];
    destruct (parse_Sync (data r)) as [s0|]; cbn [snd];
    (split; [split|split]).
  all: try (intros s [H|[]]; congruence).
  all: try (intros s []).
  all: try (intros H; discriminate).
  all: try (intros _; split; [intros [H|[]]; discriminate
                             |intros m [H|[]]; discriminate]).
  all: try (intros _; split; [intros [] | intros m []]).
  all: try (intros (s & H); discriminate).
  all: try (intros _; split; [discriminate | intros [H1 H2]; congruence]).
  all: try (intros [H1 H2]; congruence).
  all: try (intros _; eexists; reflexivity).
  all: intros [H1 H2]; exfalso; apply H2; split; [reflexivity | discriminate].
Qed.

(** X6: [getUploadReply] returns the empty object exactly when it emits
    [uploadFailed], which then carries the status of the reply, and it
    emits nothing more; the object it returns otherwise is the object of
    the body, has a [content_uri] member, and comes from a reply whose
    status is neither 0 nor 400 or more. *)
Theorem getUploadReply_result (r : Reply) :
  let obj := fst (getUploadReply r) in
  let out := snd (getUploadReply r) in
  (objIsEmpty obj = true <-> exists msg, out = [uploadFailed (status r) msg])
  /\ (objIsEmpty obj = false <-> out = [])
  /\ (objIsEmpty obj = false ->
      obj = object (fromJson (data r)) /\ contains obj "content_uri" = true /\
      failed r = false /\ isEmpty (data r) = false).
Proof.
  unfold getUploadReply.
  destruct (failed r); [|destruct (isEmpty (data r));
    [|destruct (isObject (fromJson (data r)));
      [destruct (contains (object (fromJson (data r))) "content_uri") eqn:Hc|]]];
    cbn [fst snd negb objIsEmpty];
    try (split; [split; [intros _; eexists; reflexivity | reflexivity]|];
         split; [split; discriminate | discriminate]).
  rewrite (contains_not_empty _ _ Hc).
  split; [split; [discriminate | intros (msg & H); discriminate]|].
  split; [split; reflexivity|]. intros _. repeat split. exact Hc.
Qed.

(** X7: the continuation of [uploadFile] emits exactly one signal:
    [fileUploaded] with the [content_uri] of the reply and the room,
    file name, content type and length of the request when the status
    is neither 0 nor 400 or more and the body is a JSON object with a
    [content_uri] member, and [uploadFailed] with the status of the
    reply in every other case. *)
Theorem uploadFile_finished_outcome
        (c : MatrixClient) (roomid filename mime : QString) (size : Z)
        (r : Reply) :
  let good :=
    failed r = false /\ isEmpty (data r) = false /\
    isObject (fromJson (data r)) = true /\
    contains (object (fromJson (data r))) "content_uri" = true in
  let out := snd (uploadFile_finished c roomid filename mime size r) in
  (good ->
   out = [fileUploaded roomid filename
                       (toString (value (object (fromJson (data r))) "content_uri"))
                       mime size])
  /\ (~ good -> exists msg, out = [uploadFailed (status r) msg])
  /\ length out = 1%nat.
Proof.
  unfold uploadFile_finished, getUploadReply.
  destruct (failed r); [|destruct (isEmpty (data r));
    [|destruct (isObject (fromJson (data r)));
      [destruct (contains (object (fromJson (data r))) "content_uri") eqn:Hc|]]];
    cbn [negb fst snd objIsEmpty app length];
    try (split; [intros (H1 & H2 & H3 & H4); discriminate|];
         split; [intros _; eexists; reflexivity | reflexivity]).
  rewrite (contains_not_empty _ _ Hc). cbn [snd app length].
  split; [reflexivity|]. split; [|reflexivity].
  intros H. exfalso. apply H. now repeat split.
Qed.

(** ** The filter across upload replies *)

(** X8: a filter upload answered with status 0 or at least 400 leaves
    the client object as it is, so the next [sync] of a session with a
    literal filter posts the upload again. *)
Theorem failed_upload_is_repeated (c : MatrixClient) (r : Reply) :
  startsWith (filter_ c) "{" = true ->
  isObject (fromJson (filter_ c)) = true ->
  failed r = true ->
  uploadFilter_finished c r = (c, [])
  /\ filter is_POST (snd (sync (fst (uploadFilter_finished c r))))
     = [filter_upload c].
Proof.
  intros Hlit Hobj Hf. unfold uploadFilter_finished. rewrite Hf.
  split; [reflexivity|]. cbn [fst].
  rewrite sync_requests, Hlit, Hobj. cbn [snd andb].
  destruct (isEmpty (next_batch_ c)); reflexivity.
Qed.

(** X9: a filter upload answered with a status other than 0 and below
    400 but without a [filter_id] member in the body (a body that is not
    a JSON object included) replaces the filter of the client and the
    stored [client/sync_filter] setting by the empty string; from then on
    [sync] posts no upload and sends the empty string as [filter]. *)
Theorem upload_reply_without_filter_id (c : MatrixClient) (r : Reply) :
  failed r = false ->
  contains (object (fromJson (data r))) "filter_id" = false ->
  let c' := fst (uploadFilter_finished c r) in
  filter_ c' = ""
  /\ client_sync_filter (settings c') = ""
  /\ filter is_POST (snd (sync c')) = []
  /\ (isEmpty (next_batch_ c) = false ->
      map query (snd (sync c'))
      = [[("set_presence", "online"); ("filter", "");
          ("timeout", "30000"); ("since", next_batch_ c)]]).
Proof.
  intros Hok Hmiss c'. subst c'.
  unfold uploadFilter_finished. rewrite Hok, (value_missing _ _ Hmiss).
  cbn [fst toString]. rewrite sync_requests.
  cbn [filter_ settings client_sync_filter next_batch_ snd startsWith prefix andb app].
  repeat split.
  - destruct (isEmpty (next_batch_ c)); reflexivity.
  - now intros ->.
Qed.

(** X10: a filter upload answered with a status other than 0 and below
    400 and a string [filter_id] that does not start with a brace stores
    that handle in the client and in the [client/sync_filter] setting and
    keeps server, token, cursor and transaction counter; the next [sync]
    of a session with a cursor then issues one request only, the sync
    request, with this handle as [filter]. *)
Theorem filter_handle_round_trip (c : MatrixClient) (r : Reply) (h : QString) :
  failed r = false ->
  value (object (fromJson (data r))) "filter_id" = JString h ->
  startsWith h "{" = false ->
  isEmpty (next_batch_ c) = false ->
  let c' := fst (uploadFilter_finished c r) in
  c' = mkClient (server_ c) (token_ c) (next_batch_ c) (txn_id_ c) h
                (mkSettings (auth_user_id (settings c)) h
                            (client_transaction_id (settings c)))
  /\ snd (sync c')
     = [mkRequest GET (server_ c) "/_matrix/client/r0/sync"
                  [("set_presence", "online"); ("filter", h);
                   ("timeout", "30000"); ("since", next_batch_ c)]
                  None (setupAuth c) NoBody].
Proof.
  intros Hok Hid Hh Hc c'. subst c'.
  unfold uploadFilter_finished. rewrite Hok, Hid. cbn [fst toString].
  split; [reflexivity|].
  rewrite sync_requests. cbn [filter_ next_batch_ server_ snd].
  now rewrite Hh, Hc.
Qed.

(** X11: after [reset], [sync] issues no sync request, whatever the
    client was; what it may still issue is the upload of a literal
    filter, which [reset] keeps, and that request goes to the cleared
    server. *)
Theorem sync_after_reset (c : MatrixClient) :
  filter is_GET (snd (sync (reset c))) = []
  /\ filter_ (reset c) = filter_ c
  /\ snd (sync (reset c))
     = (if startsWith (filter_ c) "{" && isObject (fromJson (filter_ c))
        then [filter_upload (reset c)] else [])
  /\ req_server (filter_upload (reset c)) = emptyUrl.
Proof.
  rewrite sync_requests. cbn [snd reset filter_ next_batch_ isEmpty].
  rewrite app_nil_r.
  destruct (startsWith (filter_ c) "{" && isObject (fromJson (filter_ c)));
    repeat split.
Qed.

(** ** Message types *)

(** X12: [sendRoomMessage] issues a request for the types text, emote,
    image, file, audio and video and none for location, notice and
    unknown; it never changes the client object.  The body it sends has
    the message text as [body], and has a [url] member, then equal to
    the url given and accompanied by an [info] member, exactly for
    image, file, audio and video. *)
Theorem sendRoomMessage_types
        (c : MatrixClient) (ty : MessageType) (txnId : Z)
        (roomid msg mime : QString) (media_size : Z) (url : QString) :
  let out := sendRoomMessage c ty txnId roomid msg mime media_size url in
  fst out = c
  /\ (snd out = [] <-> (ty = Location \/ ty = Notice \/ ty = Unknown))
  /\ (length (snd out) <= 1)%nat
  /\ (forall req b,
        In req (snd out) -> body req = JsonBody b ->
        value b "body" = JString msg
        /\ (contains b "url" = true <->
            (ty = Image \/ ty = File \/ ty = Audio \/ ty = Video))
        /\ (contains b "url" = true ->
            value b "url" = JString url /\ contains b "info" = true)).
Proof.
  unfold sendRoomMessage.
  destruct ty; cbn [message_body fst snd length];
    (split; [reflexivity|]);
    (split; [split; [intros H; try discriminate; auto
                    |intros [H|[H|H]]; try discriminate; reflexivity]|]);
    (split; [lia|]);
    intros req b Hin Hb; try (destruct Hin as [<-|[]]; cbn [body] in Hb;
                              injection Hb as <-); try destruct Hin;
    (split; [reflexivity|]);
    (split; [split; [intros H; try discriminate H; auto
                    |intros [H|[H|[H|H]]]; try discriminate; reflexivity]
            |intros H; try discriminate H; split; reflexivity]).
Qed.

(** ** The requests of the client API *)

Lemma startsWith_append (a b : string) : startsWith (a ++ b) a = true.
Proof.
  unfold startsWith. induction a as [|x a IH]; simpl.
  - destruct b; reflexivity.
  - destruct (ascii_dec x x) as [_|Hx]; [exact IH | now elim Hx].
Qed.

(** X13: whatever the arguments, each of the nineteen member functions
    of [Call] issues at most two requests, every one addressed to the
    server of the client, with the authorization of the client and a
    path under the client API prefix; it keeps server, token, cursor,
    filter and settings of the client, and all of the client unless it
    is [redactEvent]. *)
Theorem call_addresses_client_api (k : Call) (c : MatrixClient) :
  let c' := fst (call k c) in
  (length (snd (call k c)) <= 2)%nat
  /\ (forall req, In req (snd (call k c)) ->
       req_server req = server_ c /\ auth req = setupAuth c /\
       startsWith (path req) clientApiUrl_ = true)
  /\ server_ c' = server_ c /\ token_ c' = token_ c
  /\ next_batch_ c' = next_batch_ c /\ filter_ c' = filter_ c
  /\ settings c' = settings c
  /\ ((forall room_id eventid, k <> CRedactEvent room_id eventid) -> c' = c).
Proof.
  assert (Hreq : forall m p q t b req,
             In req [mkRequest m (server_ c) (clientApiUrl_ ++ p) q t
                               (setupAuth c) b] ->
             req_server req = server_ c /\ auth req = setupAuth c /\
             startsWith (path req) clientApiUrl_ = true).
  { intros m p q t b req [<-|[]]. cbn [req_server auth path].
    repeat split. apply startsWith_append. }
  destruct k; cbn [call];
    try (unfold logout, initialSync, redactEvent, incrementTransactionId,
           joinRoom, leaveRoom, inviteUser, createRoom,
           sendTypingNotification, removeTypingNotification, readEvent,
           messages, getOwnProfile, getOwnCommunities, fetchCommunityProfile,
           fetchCommunityRooms, getNotifications;
         cbn [fst snd length server_ token_ next_batch_ filter_ settings];
         split; [lia|]; split; [apply Hreq|];
         do 5 (split; [reflexivity|]); intros Hk; try reflexivity;
         now elim (Hk room_id eventid)).
  - rewrite sync_requests. cbn [fst snd].
    split; [|split; [|repeat split]].
    + destruct (startsWith (filter_ c) "{" && isObject (fromJson (filter_ c)));
        destruct (isEmpty (next_batch_ c)); cbn; lia.
    + intros req Hin. apply in_app_or in Hin as [Hin|Hin].
      * destruct (startsWith (filter_ c) "{" && isObject (fromJson (filter_ c)));
          [|destruct Hin]. revert Hin. apply Hreq.
      * destruct (isEmpty (next_batch_ c)); [destruct Hin|].
        revert Hin. apply (Hreq GET "/sync").
  - unfold sendRoomMessage.
    destruct (message_body ty msg mime media_size url);
      cbn [fst snd length]; (split; [lia|]);
      (split; [try apply Hreq; intros req [] | repeat split]).
  - unfold uploadFilter.
    destruct (isNull (fromJson filter) || negb (isObject (fromJson filter)));
      cbn [fst snd length]; (split; [lia|]);
      (split; [try apply Hreq; intros req [] | repeat split]).
Qed.

(** ** Registration *)

(** X14: the continuation of [registerUser] emits [registerSuccess]
    exactly when the body parses as a registration, whatever the status
    is; it emits [registrationFlow] exactly when the body parses as
    registration flows, and [registerError] exactly when it does not and
    the status is 0 or at least 400.  So it emits at most two signals,
    and a failure status with a body that parses as a registration and
    not as flows is reported twice: first as success, then as error. *)
Theorem registerUser_finished_outcome (user pass server : QString) (r : Reply) :
  let out := registerUser_finished user pass server r in
  (forall u h t,
      In (registerSuccess u h t) out <->
      parse_Register (data r) = Some (mkRegister u h t))
  /\ ((exists s, In (registrationFlow user pass server s) out) <->
      parse_RegistrationFlows (data r) <> None)
  /\ ((exists m, In (registerError m) out) <->
      (parse_RegistrationFlows (data r) = None /\ failed r = true))
  /\ (length out <= 2)%nat
  /\ (forall res,
        parse_Register (data r) = Some res ->
        parse_RegistrationFlows (data r) = None ->
        failed r = true ->
        exists m,
          out = [registerSuccess (register_user_id res) (register_hostname res)
                                 (register_access_token res);
                 registerError m]).
Proof.
  unfold registerUser_finished.
  destruct (parse_Register (data r)) as [[u0 h0 t0]|];
    destruct (parse_RegistrationFlows (data r)) as [fl|];
    [ | destruct (failed r); [destruct (parse_Error (data r)) as [e|]|]
      | | destruct (failed r); [destruct (parse_Error (data r)) as [e|]|]];
    cbn [app length register_user_id register_hostname register_access_token];
    (split; [intros u h t; split;
             [intros Hin; simpl in Hin; intuition congruence
             |intros H; try discriminate; injection H as <- <- <-; simpl; auto]|]);
    (split; [split;
             [intros (s & Hin); simpl in Hin; intuition (discriminate || congruence)
             |intros H; try congruence; eexists; simpl; eauto]|]);
    (split; [split;
             [intros (m & Hin); simpl in Hin; intuition (discriminate || congruence)
             |intros [H1 H2]; try discriminate; eexists; simpl; eauto]|]);
    (split; [lia|]);
    intros res H1 H2 H3; try discriminate; injection H1 as <-; eauto.
Qed.

(** ** Versions *)

(** X15: the continuation of [versions] emits exactly one signal, and it
    is [versionSuccess] exactly when the reply carries no network error,
    the status is below 400 and the body parses as a versions response;
    a reply with a network error is reported with its error text
    whatever its status is. *)
Theorem versions_finished_outcome (r : Reply) :
  let out := versions_finished r in
  length out = 1%nat
  /\ (out = [versionSuccess] <->
      (error r = false /\ status r < 400 /\ parse_Versions (data r) <> None))
  /\ (error r = true -> out = [versionError (errorString r)]).
Proof.
  unfold versions_finished.
  destruct (error r) eqn:Herr;
    [|destruct (Z.eqb_spec (status r) 404) as [H404|H404];
      [|destruct (Z.leb_spec 400 (status r)) as [H400|H400];
        [|destruct (parse_Versions (data r)) as [v|] eqn:Hv]]];
    cbn [length];
    (split; [reflexivity|]);
    (split; [split|intros H; try reflexivity; discriminate]).
  all: try (intros H; discriminate).
  all: try (intros (He & Hs & Hp); lia || discriminate || congruence).
  intros _. repeat split; [lia | discriminate].
Qed.

(** ** Communities *)

(** X16: the continuations of [fetchCommunityProfile] and
    [fetchCommunityRooms] test the status against 400 only.  A reply with
    a status below 400, status 0 of a request that got no response
    included, whose body is not a JSON object is reported as retrieved,
    with the empty object. *)
Theorem community_reply_without_object (communityId : QString) (r : Reply) :
  status r < 400 ->
  isObject (fromJson (data r)) = false ->
  fetchCommunityProfile_finished communityId r
  = [communityProfileRetrieved communityId []]
  /\ fetchCommunityRooms_finished communityId r
     = [communityRoomsRetrieved communityId []].
Proof.
  intros Hs Ho.
  unfold fetchCommunityProfile_finished, fetchCommunityRooms_finished.
  replace (400 <=? status r) with false by (symmetry; apply Z.leb_gt; lia).
  destruct (fromJson (data r)); try discriminate; split; reflexivity.
Qed.

(** X17: for a status below 400 the continuation of [getOwnCommunities]
    emits nothing when the body has no [groups] member (a body that is
    not a JSON object included) and otherwise one response with one
    entry per element of the [groups] array, the string for a string
    element and the empty string for any other; a [groups] member that
    is not an array gives the empty list.  For a status of 400 or more
    it emits nothing. *)
Theorem getOwnCommunities_finished_outcome (r : Reply) :
  let json := object (fromJson (data r)) in
  let out := getOwnCommunities_finished r in
  (400 <= status r -> out = [])
  /\ (status r < 400 -> contains json "groups" = false -> out = [])
  /\ (status r < 400 -> contains json "groups" = true ->
      exists groups,
        out = [getOwnCommunitiesResponse groups]
        /\ length groups = length (toArray (value json "groups"))
        /\ (forall i s, nth_error (toArray (value json "groups")) i = Some (JString s) ->
                        nth_error groups i = Some s)
        /\ ((forall xs, value json "groups" <> JArray xs) -> groups = [])).
Proof.
  unfold getOwnCommunities_finished.
  destruct (Z.leb_spec 400 (status r)) as [H400|H400]; repeat split; intros;
    try reflexivity; try lia.
  - now rewrite H0.
  - rewrite H0. cbn [negb].
    exists (map toString (toArray (value (object (fromJson (data r))) "groups"))).
    repeat split.
    + apply length_map.
    + intros i s Hi. rewrite nth_error_map, Hi. reflexivity.
    + intros Hna.
      destruct (value (object (fromJson (data r))) "groups") eqn:Hv;
        try reflexivity.
      now elim (Hna xs).
Qed.

(** ** Joining and creating rooms *)

(** X18: the continuations of [joinRoom] and [createRoom] emit at most
    one signal.  For a status other than 0 and below 400 they report
    success with the [room_id] of the body, which is the empty string
    when the body has no such member; for status 0 or at least 400 they
    report the failure exactly when the body is a JSON object with an
    [error] member and emit nothing otherwise. *)
Theorem joinRoom_finished_outcome (r : Reply) :
  let json := object (fromJson (data r)) in
  (length (joinRoom_finished r) <= 1)%nat
  /\ (length (createRoom_finished r) <= 1)%nat
  /\ (failed r = false ->
      joinRoom_finished r = [joinedRoom (toString (value json "room_id"))] /\
      createRoom_finished r = [roomCreated (toString (value json "room_id"))])
  /\ (failed r = false -> contains json "room_id" = false ->
      joinRoom_finished r = [joinedRoom ""] /\
      createRoom_finished r = [roomCreated ""])
  /\ (failed r = true ->
      ((exists m, joinRoom_finished r = [joinFailed m]) <->
       contains json "error" = true) /\
      (contains json "error" = false ->
       joinRoom_finished r = [] /\ createRoom_finished r = [])).
Proof.
  unfold joinRoom_finished, createRoom_finished.
  destruct (failed r);
    [destruct (contains (object (fromJson (data r))) "error")|];
    cbn [length]; (split; [lia|]); (split; [lia|]);
    (split; [intros H; try discriminate; split; reflexivity|]);
    (split; [intros H Hm; try discriminate;
             rewrite (value_missing _ _ Hm); split; reflexivity|]);
    intros H; try discriminate;
    (split; [split; [intros (m & Hm); try discriminate; reflexivity
                    |intros Hc; try discriminate; eexists; reflexivity]
            |intros Hc; try discriminate; split; reflexivity]).
Qed.

End MoreProperties.

(** * The further properties at work *)

Lemma login_finished_outcome_witness :
  (status login_ok_reply < 400 /\ error login_ok_reply = false
   /\ parse_Login (JsonLib := Flat.lib) (data login_ok_reply) <> None)
  /\ exists u h t,
      snd (login_finished (lib := Flat.lib) synced_client login_ok_reply)
      = [loginSuccess u h t].
Proof.
  assert (H : status login_ok_reply < 400 /\ error login_ok_reply = false
              /\ parse_Login (JsonLib := Flat.lib) (data login_ok_reply) <> None)
    by (repeat split; discriminate).
  split; [exact H|].
  pose proof (login_finished_outcome (lib := Flat.lib) synced_client
                login_ok_reply) as (_ & _ & Hiff & _).
  exact (proj2 Hiff H).
Defined.

Lemma login_hostname_witness :
  (status login_ok_reply < 400 /\ plain (host (server_ port_client)) = true)
  /\ snd (login_finished (lib := Flat.lib) port_client login_ok_reply)
     = [loginSuccess "@alice:matrix.org" "localhost:8448" "secret"].
Proof.
  split; [split; reflexivity|].
  exact (login_hostname (lib := Flat.lib) port_client login_ok_reply
           (mkLogin "@alice:matrix.org" "secret")
           eq_refl eq_refl eq_refl eq_refl).
Defined.

Lemma finished_keeps_client_witness :
  PInitialSync <> PUploadFilter
  /\ fst (finished (lib := Flat.lib) PInitialSync fresh_client sync_ok_reply)
     = fresh_client
  /\ snd (finished (lib := Flat.lib) PInitialSync fresh_client sync_ok_reply)
     = [initialSyncCompleted (mkSync "s72_2")].
Proof.
  assert (H : PInitialSync <> PUploadFilter) by discriminate.
  split; [exact H|]. split; [|reflexivity].
  exact (proj1 (finished_keeps_client (lib := Flat.lib) PInitialSync
                  fresh_client sync_ok_reply H)).
Defined.

Lemma redactEvent_finished_outcome_witness :
  (failed event_id_500_reply = true
   /\ parse_Error (JsonLib := Flat.lib) (data event_id_500_reply) = None
   /\ parse_EventId (JsonLib := Flat.lib) (data event_id_500_reply)
      = Some (mkEventId "$ev1"))
  /\ snd (redactEvent_finished (lib := Flat.lib) synced_client
                                "!room:matrix.org" "$ev0" event_id_500_reply)
     = [redactionCompleted "!room:matrix.org" "$ev0"].
Proof.
  split; [repeat split|].
  pose proof (redactEvent_finished_outcome (lib := Flat.lib) synced_client
                "!room:matrix.org" "$ev0" event_id_500_reply) as (_ & Hiff & _).
  apply (proj2 Hiff). split; [discriminate|].
  intros [_ H]. now apply H.
Defined.

Lemma sync_finished_outcome_witness :
  parse_Sync (JsonLib := Flat.lib) (data sync_ok_reply) = Some (mkSync "s72_2")
  /\ exists s,
      snd (sync_finished (lib := Flat.lib) synced_client sync_ok_reply)
      = [syncCompleted s].
Proof.
  split; [reflexivity|].
  pose proof (sync_finished_outcome (lib := Flat.lib) synced_client
                sync_ok_reply) as (Hiff & _).
  apply (proj2 Hiff). split; [discriminate|].
  intros [H _]. discriminate H.
Defined.

Lemma getUploadReply_result_witness :
  objIsEmpty (fst (getUploadReply (lib := Flat.lib) content_uri_reply)) = false
  /\ contains (fst (getUploadReply (lib := Flat.lib) content_uri_reply))
              "content_uri" = true
  /\ snd (getUploadReply (lib := Flat.lib) content_uri_reply) = [].
Proof.
  pose proof (getUploadReply_result (lib := Flat.lib) content_uri_reply)
    as (_ & Hiff & Hobj).
  split; [reflexivity|]. split.
  - exact (proj1 (proj2 (Hobj eq_refl))).
  - exact (proj1 Hiff eq_refl).
Defined.

Lemma uploadFile_finished_outcome_witness :
  (failed content_uri_reply = false /\ isEmpty (data content_uri_reply) = false)
  /\ snd (uploadFile_finished (lib := Flat.lib) synced_client "!room:matrix.org"
                               "cat.png" "image/png" 1024 content_uri_reply)
     = [fileUploaded "!room:matrix.org" "cat.png" "mxc://matrix.org/abc"
                     "image/png" 1024].
Proof.
  split; [split; reflexivity|].
  pose proof (uploadFile_finished_outcome (lib := Flat.lib) synced_client
                "!room:matrix.org" "cat.png" "image/png" 1024 content_uri_reply)
    as (Hgood & _).
  apply Hgood. repeat split.
Defined.

Lemma failed_upload_is_repeated_witness :
  (startsWith (filter_ synced_client) "{" = true
   /\ isObject (fromJson (JsonLib := Flat.lib) (filter_ synced_client)) = true
   /\ failed no_response_reply = true)
  /\ filter is_POST
       (snd (sync (lib := Flat.lib)
                  (fst (uploadFilter_finished (lib := Flat.lib) synced_client
                                              no_response_reply))))
     = [filter_upload (lib := Flat.lib) synced_client].
Proof.
  split; [repeat split|].
  exact (proj2 (failed_upload_is_repeated (lib := Flat.lib) synced_client
                  no_response_reply eq_refl eq_refl eq_refl)).
Defined.

Lemma upload_reply_without_filter_id_witness :
  (failed empty_object_reply = false
   /\ contains (object (fromJson (JsonLib := Flat.lib) (data empty_object_reply)))
               "filter_id" = false)
  /\ filter_ (fst (uploadFilter_finished (lib := Flat.lib) synced_client
                                         empty_object_reply)) = "".
Proof.
  split; [split; reflexivity|].
  exact (proj1 (upload_reply_without_filter_id (lib := Flat.lib) synced_client
                  empty_object_reply eq_refl eq_refl)).
Defined.

Lemma filter_handle_round_trip_witness :
  (failed filter_created_reply = false
   /\ value (object (fromJson (JsonLib := Flat.lib) (data filter_created_reply)))
            "filter_id" = JString "abc")
  /\ map query
         (snd (sync (lib := Flat.lib)
                    (fst (uploadFilter_finished (lib := Flat.lib) synced_client
                                                filter_created_reply))))
     = [[("set_presence", "online"); ("filter", "abc");
         ("timeout", "30000"); ("since", "s72_1")]].
Proof.
  split; [split; reflexivity|].
  pose proof (filter_handle_round_trip (lib := Flat.lib) synced_client
                filter_created_reply "abc" eq_refl eq_refl eq_refl eq_refl)
    as (_ & Hsync).
  now rewrite Hsync.
Defined.

Lemma sync_after_reset_witness :
  filter is_GET (snd (sync (lib := Flat.lib) (reset synced_client))) = []
  /\ length (snd (sync (lib := Flat.lib) (reset synced_client))) = 1%nat.
Proof.
  split; [|reflexivity].
  exact (proj1 (sync_after_reset (lib := Flat.lib) synced_client)).
Defined.

Lemma sendRoomMessage_types_witness :
  snd (sendRoomMessage synced_client Notice 5 "!room:matrix.org" "hello" "" 0 "")
  = [].
Proof.
  pose proof (sendRoomMessage_types synced_client Notice 5 "!room:matrix.org"
                "hello" "" 0 "") as (_ & Hiff & _).
  apply (proj2 Hiff). right. left. reflexivity.
Defined.

Lemma call_addresses_client_api_witness :
  Forall (fun req =>
            req_server req = example_server /\ auth req = Some "secret" /\
            startsWith (path req) "/_matrix/client/r0" = true)
         (snd (call (lib := Flat.lib) (CJoinRoom "#nheko:matrix.org")
                    synced_client))
  /\ fst (call (lib := Flat.lib) (CJoinRoom "#nheko:matrix.org") synced_client)
     = synced_client.
Proof.
  pose proof (call_addresses_client_api (lib := Flat.lib)
                (CJoinRoom "#nheko:matrix.org") synced_client)
    as (_ & Hreq & _ & _ & _ & _ & _ & Hsame).
  split.
  - apply Forall_forall. exact Hreq.
  - apply Hsame. discriminate.
Defined.

Lemma registerUser_finished_outcome_witness :
  (parse_Register (MtxLib := FlatMtx.lib) (data registered_500_reply)
   = Some (mkRegister "@alice:matrix.org" "matrix.org" "secret")
   /\ failed registered_500_reply = true)
  /\ exists m,
      registerUser_finished (lib := Flat.lib) (mtx := FlatMtx.lib)
                            "alice" "pw" "matrix.org" registered_500_reply
      = [registerSuccess "@alice:matrix.org" "matrix.org" "secret";
         registerError m].
Proof.
  split; [split; reflexivity|].
  pose proof (registerUser_finished_outcome (lib := Flat.lib)
                (mtx := FlatMtx.lib) "alice" "pw" "matrix.org"
                registered_500_reply) as (_ & _ & _ & _ & Htwice).
  exact (Htwice _ eq_refl eq_refl eq_refl).
Defined.

Lemma versions_finished_outcome_witness :
  error no_response_reply = true
  /\ versions_finished (mtx := FlatMtx.lib) no_response_reply
     = [versionError "Connection refused"].
Proof.
  split; [reflexivity|].
  pose proof (versions_finished_outcome (mtx := FlatMtx.lib) no_response_reply)
    as (_ & _ & Herr).
  exact (Herr eq_refl).
Defined.

Lemma community_reply_without_object_witness :
  (status no_response_reply < 400
   /\ isObject (fromJson (JsonLib := Flat.lib) (data no_response_reply)) = false)
  /\ fetchCommunityProfile_finished (lib := Flat.lib) "+nheko:matrix.org"
                                     no_response_reply
     = [communityProfileRetrieved "+nheko:matrix.org" []].
Proof.
  split; [split; reflexivity|].
  exact (proj1 (community_reply_without_object (lib := Flat.lib)
                  "+nheko:matrix.org" no_response_reply eq_refl eq_refl)).
Defined.

Lemma getOwnCommunities_finished_outcome_witness :
  (status empty_object_reply < 400
   /\ contains (object (fromJson (JsonLib := Flat.lib) (data empty_object_reply)))
               "groups" = false)
  /\ getOwnCommunities_finished (lib := Flat.lib) empty_object_reply = [].
Proof.
  split; [split; reflexivity|].
  pose proof (getOwnCommunities_finished_outcome (lib := Flat.lib)
                empty_object_reply) as (_ & Hnone & _).
  exact (Hnone eq_refl eq_refl).
Defined.

Lemma joinRoom_finished_outcome_witness :
  (failed empty_object_reply = false
   /\ contains (object (fromJson (JsonLib := Flat.lib) (data empty_object_reply)))
               "room_id" = false)
  /\ joinRoom_finished (lib := Flat.lib) empty_object_reply = [joinedRoom ""]
  /\ createRoom_finished (lib := Flat.lib) empty_object_reply = [roomCreated ""].
Proof.
  split; [split; reflexivity|].
  pose proof (joinRoom_finished_outcome (lib := Flat.lib) empty_object_reply)
    as (_ & _ & _ & Hmiss & _).
  exact (Hmiss eq_refl eq_refl).
Defined.
